(** * Moltbot Analytics collector: a shallow embedding of [collect_stats.py]

    The collector reads two JSON files, polls the forum and the repository
    endpoints, and writes a snapshot ([data.json]) and a bounded history
    ([history.json]).  Everything it handles is a parsed JSON document, so
    the embedding works on Python values as [json.load] produces them and
    on the handful of Python operations the script applies to them.

    Conventions of the embedding.
    - A Python [int] is a [Z].  A finite Python [float] is the rational it
      denotes ([Q]).  True division, the one operation of the script that
      produces a float out of integers, rounds as binary64 does
      ([round64], round to nearest, ties to even, subnormals included) and
      raises [OverflowError] where CPython does.  An [int] that meets a
      [float] in [+], [-] or [/] is converted first, and the conversion
      raises [OverflowError] beyond the binary64 range.  The sum and the
      difference of two floats are kept exact.  For [now - 86400] this is
      what binary64 does for every clock reading between 2004 and 2038;
      for the sums of the script it is an idealisation, and the results
      that rest on it are the ones about integer counts, where Python is
      exact too.  The infinities and NaN, which [json.load] accepts, are
      not values of the embedding: statements about all responses range
      over the finite ones.
    - A JSON object is an association list in insertion order; [json.load]
      never yields a repeated key.
    - A raised exception is the [Raise] outcome of [result]; the [try] /
      [except Exception] blocks of the fetchers turn it into [None].
    - [print] calls are dropped: they do not touch the stored data. *)

From Stdlib Require Import ZArith QArith Qround Qabs Qpower List String Bool Lia Lqa.
Import ListNotations.
Local Open Scope string_scope.
Local Open Scope Z_scope.

(** ** Python values *)

#[local] Set Warnings "-register-all".

Inductive value : Type :=
| VNone
| VBool (b : bool)
| VInt (z : Z)
| VFloat (q : Q)
| VStr (s : string)
| VList (l : list value)
| VDict (d : list (string * value)).

Inductive exn : Type :=
| TypeError
| AttributeError
| ZeroDivisionError
| OverflowError
| JSONDecodeError
| ConnectionError.

Inductive result (A : Type) : Type :=
| Ok (a : A)
| Raise (e : exn).
Arguments Ok {A} a.
Arguments Raise {A} e.

Definition bind {A B : Type} (m : result A) (k : A -> result B) : result B :=
  match m with
  | Ok a => k a
  | Raise e => Raise e
  end.

Notation "x <- m ;; k" := (bind m (fun x => k))
  (at level 61, m at next level, right associativity).

(** [except Exception: return None] *)
Definition except_none {A : Type} (m : result (option A)) : option A :=
  match m with
  | Ok r => r
  | Raise _ => None
  end.

(** ** The Python operations the script uses *)

Fixpoint lookup (k : string) (d : list (string * value)) : option value :=
  match d with
  | [] => None
  | (k', v) :: d' => if String.eqb k k' then Some v else lookup k d'
  end.

(** [d[k] = v]: overwrite in place, or add at the end. *)
Fixpoint dict_set (k : string) (v : value) (d : list (string * value))
  : list (string * value) :=
  match d with
  | [] => [(k, v)]
  | (k', v') :: d' =>
      if String.eqb k k' then (k, v) :: d' else (k', v') :: dict_set k v d'
  end.

Definition dict_get (d : list (string * value)) (k : string)
  (default : value) : value :=
  match lookup k d with
  | Some v => v
  | None => default
  end.

(** [o.get(k, default)]; only a dict has a [get]. *)
Definition py_get (o : value) (k : string) (default : value) : result value :=
  match o with
  | VDict d => Ok (dict_get d k default)
  | _ => Raise AttributeError
  end.

(** [bool(v)] *)
Definition truthy (v : value) : bool :=
  match v with
  | VNone => false
  | VBool b => b
  | VInt z => negb (z =? 0)
  | VFloat q => negb (Qeq_bool q 0)
  | VStr s => negb (String.eqb s "")
  | VList l => match l with [] => false | _ => true end
  | VDict d => match d with [] => false | _ => true end
  end.

(** [a or b] *)
Definition py_or (a b : value) : value := if truthy a then a else b.

(** [bool] is a subtype of [int]. *)
Definition int_of (v : value) : option Z :=
  match v with
  | VBool b => Some (Z.b2z b)
  | VInt z => Some z
  | _ => None
  end.

Definition num_of (v : value) : option Q :=
  match v with
  | VBool b => Some (inject_Z (Z.b2z b))
  | VInt z => Some (inject_Z z)
  | VFloat q => Some q
  | _ => None
  end.

(** [round(x)] on a float: to the nearest integer, a tie to the even one. *)
Definition round_half_even (q : Q) : Z :=
  let f := Qfloor q in
  match Qcompare (q - inject_Z f) (1 # 2) with
  | Lt => f
  | Gt => f + 1
  | Eq => if Z.even f then f else f + 1
  end.

(** *** Binary64

    A finite [float] has 53 significant bits and an exponent between
    -1074 and 971 for its last bit.  [exponent q] is the position of the
    leading bit of [q], [round64 q] the nearest multiple of the last-bit
    weight at that magnitude (a tie to the even multiple), and
    [finite64] tells whether the rounded value stays below 2^1024, the
    first magnitude binary64 cannot hold. *)
Definition exponent (q : Q) : Z :=
  let k := Z.log2 (Z.abs (Qnum q)) - Z.log2 (Zpos (Qden q)) in
  if Qle_bool (2 ^ k) (Qabs q) then k else k - 1.

Definition round64 (q : Q) : Q :=
  if Qeq_bool q 0 then 0%Q
  else
    let e := Z.max (exponent q - 52) (-1074) in
    (inject_Z (round_half_even (q / 2 ^ e)) * 2 ^ e)%Q.

Definition finite64 (q : Q) : bool := negb (Qle_bool (2 ^ 1024) (Qabs q)).

(** [float(v)] as applied to an [int] operand of a float operation: it
    raises [OverflowError] when the integer is beyond the binary64
    range.  A float operand is left alone. *)
Definition fits_float (v : value) : bool :=
  match int_of v with
  | Some z => finite64 (round64 (inject_Z z))
  | None => true
  end.

(** The float a real-valued result is stored as; a result too large for
    binary64 is an [OverflowError]. *)
Definition to_float (q : Q) : result value :=
  let d := round64 q in
  if finite64 d then Ok (VFloat d) else Raise OverflowError.

(** Arithmetic is only ever applied with a number on one side (an
    accumulator that starts at [0], or the float [day_ago]), so the string
    and list meanings of [+] and [>] cannot arise: a non-number on the
    other side is a [TypeError].  Two integers are combined exactly; when
    a float is involved an integer operand must fit a float
    ([OverflowError] otherwise), and the float result is kept as the
    exact rational. *)
Definition py_arith (fz : Z -> Z -> Z) (fq : Q -> Q -> Q) (a b : value)
  : result value :=
  match int_of a, int_of b with
  | Some x, Some y => Ok (VInt (fz x y))
  | _, _ =>
      match num_of a, num_of b with
      | Some x, Some y =>
          if fits_float a && fits_float b then Ok (VFloat (fq x y))
          else Raise OverflowError
      | _, _ => Raise TypeError
      end
  end.

Definition py_add : value -> value -> result value := py_arith Z.add Qplus.
Definition py_sub : value -> value -> result value := py_arith Z.sub Qminus.

(** [a > b] *)
Definition py_gt (a b : value) : result bool :=
  match num_of a, num_of b with
  | Some x, Some y => Ok (negb (Qle_bool x y))
  | _, _ => Raise TypeError
  end.

(** [max(a, b)]: the first argument stays unless the second is greater. *)
Definition py_max (a b : value) : result value :=
  c <- py_gt b a ;; Ok (if c then b else a).

(** [a / b], true division.  The quotient of two integers is the float
    nearest to the exact quotient, or an [OverflowError] when that is
    too large.  Otherwise the operands are floats, an integer one after
    conversion, and the quotient is rounded from theirs; the script
    passes every quotient to [round], which raises [OverflowError] on
    the infinity a float division overflows to, and that outcome is
    reported here, at the division. *)
Definition py_truediv (a b : value) : result value :=
  match num_of a, num_of b with
  | Some x, Some y =>
      match int_of a, int_of b with
      | Some _, Some _ =>
          if Qeq_bool y 0 then Raise ZeroDivisionError else to_float (x / y)
      | _, _ =>
          if fits_float a && fits_float b then
            if Qeq_bool (round64 y) 0 then Raise ZeroDivisionError
            else to_float (round64 x / round64 y)
          else Raise OverflowError
      end
  | _, _ => Raise TypeError
  end.

Definition py_round (v : value) : result value :=
  match v with
  | VBool b => Ok (VInt (Z.b2z b))
  | VInt z => Ok (VInt z)
  | VFloat q => Ok (VInt (round_half_even q))
  | _ => Raise TypeError
  end.

(** [len(v)]; a string is taken as its sequence of characters. *)
Definition py_len (v : value) : result Z :=
  match v with
  | VStr s => Ok (Z.of_nat (String.length s))
  | VList l => Ok (Z.of_nat (List.length l))
  | VDict d => Ok (Z.of_nat (List.length d))
  | _ => Raise TypeError
  end.

Fixpoint chars (s : string) : list value :=
  match s with
  | EmptyString => []
  | String c s' => VStr (String c EmptyString) :: chars s'
  end.

(** What [for x in v] runs over. *)
Definition py_iter (v : value) : result (list value) :=
  match v with
  | VStr s => Ok (chars s)
  | VList l => Ok l
  | VDict d => Ok (map (fun kv => VStr (fst kv)) d)
  | _ => Raise TypeError
  end.

(** A [for] loop whose body may raise. *)
Fixpoint for_each {A S : Type} (body : S -> A -> result S) (s : S)
  (xs : list A) : result S :=
  match xs with
  | [] => Ok s
  | x :: xs' => s' <- body s x ;; for_each body s' xs'
  end.

(** ** The outside world of one run *)

(** The outcome of [requests.get(url, ...)]: the call raises, or it gives
    a response with a status code whose [json()] either parses or raises. *)
Inductive http_outcome : Type :=
| Failed
| Response (status_code : Z) (body : option value).

(** [resp.json()] *)
Definition json (body : option value) : result value :=
  match body with
  | Some v => Ok v
  | None => Raise JSONDecodeError
  end.

(** What a run observes: the answer to each URL, the UTC clock as read
    while a given community is fetched (seconds since the epoch), and the
    four formatted time strings the run stores. *)
Record world : Type := {
  http_get : string -> http_outcome;
  utc_timestamp : string -> Q;
  timestamp : string;
  timestamp_local : string;
  timestamp_iso : string;
  time_local : string
}.

(** ** Configuration *)

Definition SUBREDDITS : list string :=
  ["clawdbot"; "moltbot"; "moltbothub"; "moltbothq"; "moltbotcommunity"].
Definition GITHUB_REPO : string := "anthropics/claude-code".

Definition about_url (subreddit : string) : string :=
  ("https://www.reddit.com/r/" ++ subreddit ++ "/about.json")%string.
Definition hot_url (subreddit : string) : string :=
  ("https://www.reddit.com/r/" ++ subreddit ++ "/hot.json?limit=100")%string.
Definition github_url : string :=
  ("https://api.github.com/repos/" ++ GITHUB_REPO)%string.

(** ** fetch_subreddit_stats *)

(** The four loop variables of the 24h scan. *)
Record counters : Type := {
  c_posts_24h : Z;
  c_comments_24h : value;
  c_upvotes_24h : value;
  c_top_score : value
}.

Definition counters0 : counters :=
  {| c_posts_24h := 0; c_comments_24h := VInt 0;
     c_upvotes_24h := VInt 0; c_top_score := VInt 0 |}.

(** The dict a successful fetch returns. *)
Record stats : Type := {
  name : string;
  key : string;
  subscribers : value;
  active : value;
  posts_24h : value;
  comments : value;
  avg_score : value;
  total_upvotes : value;
  top_score : value
}.

(** [p = post.get('data', {}); created = p.get('created_utc', 0)] *)
Definition post_data (post : value) : result value :=
  py_get post "data" (VDict []).
Definition post_created (p : value) : result value :=
  py_get p "created_utc" (VInt 0).

(** The body of [for post in posts_data]. *)
Definition scan_post (day_ago : Q) (c : counters) (post : value)
  : result counters :=
  p <- post_data post ;;
  created <- post_created p ;;
  recent <- py_gt created (VFloat day_ago) ;;
  if recent : bool then
    n <- py_get p "num_comments" (VInt 0) ;;
    comments_24h <- py_add (c_comments_24h c) n ;;
    score <- py_get p "score" (VInt 0) ;;
    upvotes_24h <- py_add (c_upvotes_24h c) score ;;
    top <- py_max (c_top_score c) score ;;
    Ok {| c_posts_24h := c_posts_24h c + 1;
          c_comments_24h := comments_24h;
          c_upvotes_24h := upvotes_24h;
          c_top_score := top |}
  else Ok c.

Definition scan_posts (day_ago : Q) (posts : list value) : result counters :=
  for_each (scan_post day_ago) counters0 posts.

(** The hot listing: [resp.json().get('data', {}).get('children', [])] on
    status 200, the empty list otherwise. *)
Definition hot_posts (r : http_outcome) : result value :=
  match r with
  | Failed => Raise ConnectionError
  | Response status_code body =>
      if status_code =? 200 then
        j <- json body ;;
        d <- py_get j "data" (VDict []) ;;
        py_get d "children" (VList [])
      else Ok (VList [])
  end.

(** The body of the [try] block. *)
Definition fetch_subreddit_stats_try (w : world) (subreddit : string)
  : result (option stats) :=
  match http_get w (about_url subreddit) with
  | Failed => Raise ConnectionError
  | Response status_code body =>
      if negb (status_code =? 200) then Ok None
      else
        j <- json body ;;
        about <- py_get j "data" (VDict []) ;;
        posts_data <- hot_posts (http_get w (hot_url subreddit)) ;;
        let now := utc_timestamp w subreddit in
        let day_ago := (now - 86400)%Q in
        posts <- py_iter posts_data ;;
        c <- scan_posts day_ago posts ;;
        subs <- py_get about "subscribers" (VInt 0) ;;
        act <- py_get about "accounts_active" (VInt 0) ;;
        m <- py_max (VInt (c_posts_24h c)) (VInt 1) ;;
        quot <- py_truediv (c_upvotes_24h c) m ;;
        avg <- py_round quot ;;
        Ok (Some {| name := ("r/" ++ subreddit)%string;
                    key := subreddit;
                    subscribers := subs;
                    active := py_or act (VInt 0);
                    posts_24h := VInt (c_posts_24h c);
                    comments := c_comments_24h c;
                    avg_score := avg;
                    total_upvotes := c_upvotes_24h c;
                    top_score := c_top_score c |})
  end.

Definition fetch_subreddit_stats (w : world) (subreddit : string)
  : option stats :=
  except_none (fetch_subreddit_stats_try w subreddit).

(** ** fetch_github_stats *)

Record repo : Type := {
  stars : value;
  forks : value;
  open_issues : value
}.

Definition fetch_github_stats_try (w : world) : result (option repo) :=
  match http_get w github_url with
  | Failed => Raise ConnectionError
  | Response status_code body =>
      if negb (status_code =? 200) then Ok None
      else
        data <- json body ;;
        s <- py_get data "stargazers_count" (VInt 0) ;;
        f <- py_get data "forks_count" (VInt 0) ;;
        i <- py_get data "open_issues_count" (VInt 0) ;;
        Ok (Some {| stars := s; forks := f; open_issues := i |})
  end.

Definition fetch_github_stats (w : world) : option repo :=
  except_none (fetch_github_stats_try w).

(** ** The two persisted files *)

Inductive file : Type :=
| Absent
| Unparsable
| Parsed (v : value).

Record files : Type := {
  DATA_FILE : file;
  HISTORY_FILE : file
}.

Definition load_history (fs : files) : value :=
  match HISTORY_FILE fs with
  | Parsed v => v
  | _ => VList []
  end.

Definition load_previous_data (fs : files) : value :=
  match DATA_FILE fs with
  | Parsed v => v
  | _ => VDict []
  end.

(** ** collect_all_stats *)

(** The variables of the loop over [SUBREDDITS]. *)
Module Totals.
Record t : Type := {
  subreddit_stats : list stats;
  total_subs : value;
  total_active : value;
  total_posts : value;
  total_comments : value;
  total_upvotes : value
}.
End Totals.

Definition totals0 : Totals.t :=
  {| Totals.subreddit_stats := [];
     Totals.total_subs := VInt 0;
     Totals.total_active := VInt 0;
     Totals.total_posts := VInt 0;
     Totals.total_comments := VInt 0;
     Totals.total_upvotes := VInt 0 |}.

(** The body of [for sub in SUBREDDITS].  A returned dict has nine keys,
    so [if stats:] is the test that the fetch did not return [None]. *)
Definition collect_sub (w : world) (t : Totals.t) (sub : string)
  : result Totals.t :=
  match fetch_subreddit_stats w sub with
  | Some st =>
      s <- py_add (Totals.total_subs t) (subscribers st) ;;
      a <- py_add (Totals.total_active t) (active st) ;;
      p <- py_add (Totals.total_posts t) (posts_24h st) ;;
      c <- py_add (Totals.total_comments t) (comments st) ;;
      u <- py_add (Totals.total_upvotes t) (total_upvotes st) ;;
      Ok {| Totals.subreddit_stats := (Totals.subreddit_stats t ++ [st])%list;
            Totals.total_subs := s;
            Totals.total_active := a;
            Totals.total_posts := p;
            Totals.total_comments := c;
            Totals.total_upvotes := u |}
  | None => Ok t
  end.

(** The ['reddit'] and ['github'] parts of the snapshot. *)
Module Reddit.
Record t : Type := {
  total_subscribers : value;
  delta_subscribers : value;
  total_active : value;
  total_posts_24h : value;
  total_comments : value;
  total_upvotes : value;
  subreddits : list stats
}.
End Reddit.

Module Github.
Record t : Type := {
  stars : value;
  stars_delta : value;
  forks : value;
  forks_delta : value;
  open_issues : value
}.
End Github.

Record snapshot : Type := {
  data_timestamp : string;
  data_timestamp_local : string;
  data_points : Z;
  reddit : Reddit.t;
  github : Github.t
}.

(** [json.dump] followed by [json.load] gives the document back, so a
    written file is kept as the value it will be read as. *)
Definition stats_value (s : stats) : value :=
  VDict [("name", VStr (name s));
         ("key", VStr (key s));
         ("subscribers", subscribers s);
         ("active", active s);
         ("posts_24h", posts_24h s);
         ("comments", comments s);
         ("avg_score", avg_score s);
         ("total_upvotes", total_upvotes s);
         ("top_score", top_score s)].

Definition reddit_value (r : Reddit.t) : value :=
  VDict [("total_subscribers", Reddit.total_subscribers r);
         ("delta_subscribers", Reddit.delta_subscribers r);
         ("total_active", Reddit.total_active r);
         ("total_posts_24h", Reddit.total_posts_24h r);
         ("total_comments", Reddit.total_comments r);
         ("total_upvotes", Reddit.total_upvotes r);
         ("subreddits", VList (map stats_value (Reddit.subreddits r)))].

Definition github_value (g : Github.t) : value :=
  VDict [("stars", Github.stars g);
         ("stars_delta", Github.stars_delta g);
         ("forks", Github.forks g);
         ("forks_delta", Github.forks_delta g);
         ("open_issues", Github.open_issues g)].

Definition snapshot_value (d : snapshot) : value :=
  VDict [("timestamp", VStr (data_timestamp d));
         ("timestamp_local", VStr (data_timestamp_local d));
         ("data_points", VInt (data_points d));
         ("reddit", reddit_value (reddit d));
         ("github", github_value (github d))].

(** [cur - prev.get(field, cur)] *)
Definition delta (cur prev : value) (field : string) : result value :=
  base <- py_get prev field cur ;;
  py_sub cur base.

(** The repository counters of the run: the fetched ones, or zeros. *)
Definition github_or_zero (w : world) : repo :=
  match fetch_github_stats w with
  | Some g => g
  | None => {| stars := VInt 0; forks := VInt 0; open_issues := VInt 0 |}
  end.

(** Everything up to and including the construction of [data]. *)
Definition build_data (w : world) (fs : files)
  : result (snapshot * Totals.t * repo) :=
  let prev := load_previous_data fs in
  prev_reddit <- py_get prev "reddit" (VDict []) ;;
  prev_github <- py_get prev "github" (VDict []) ;;
  t <- for_each (collect_sub w) totals0 SUBREDDITS ;;
  let gh := github_or_zero w in
  n <- py_len (load_history fs) ;;
  dsubs <- delta (Totals.total_subs t) prev_reddit "total_subscribers" ;;
  dstars <- delta (stars gh) prev_github "stars" ;;
  dforks <- delta (forks gh) prev_github "forks" ;;
  Ok ({| data_timestamp := timestamp w;
         data_timestamp_local := timestamp_local w;
         data_points := n + 1;
         reddit :=
           {| Reddit.total_subscribers := Totals.total_subs t;
              Reddit.delta_subscribers := dsubs;
              Reddit.total_active := Totals.total_active t;
              Reddit.total_posts_24h := Totals.total_posts t;
              Reddit.total_comments := Totals.total_comments t;
              Reddit.total_upvotes := Totals.total_upvotes t;
              Reddit.subreddits := Totals.subreddit_stats t |};
         github :=
           {| Github.stars := stars gh;
              Github.stars_delta := dstars;
              Github.forks := forks gh;
              Github.forks_delta := dforks;
              Github.open_issues := open_issues gh |} |}, t, gh).

(** The five per-community keys of a history entry. *)
Definition add_subreddit (e : list (string * value)) (st : stats)
  : list (string * value) :=
  let k := key st in
  dict_set (k ++ "_comments")%string (comments st)
    (dict_set (k ++ "_upvotes")%string (total_upvotes st)
      (dict_set (k ++ "_posts")%string (posts_24h st)
        (dict_set (k ++ "_active")%string (active st)
          (dict_set (k ++ "_subs")%string (subscribers st) e)))).

Definition history_entry (w : world) (t : Totals.t) (gh : repo) : value :=
  let e0 := [("timestamp", VStr (timestamp_iso w));
             ("time_local", VStr (time_local w));
             ("reddit_total", Totals.total_subs t);
             ("reddit_active", Totals.total_active t);
             ("reddit_posts", Totals.total_posts t);
             ("reddit_comments", Totals.total_comments t);
             ("reddit_upvotes", Totals.total_upvotes t)] in
  let e1 := fold_left add_subreddit (Totals.subreddit_stats t) e0 in
  VDict (dict_set "github_issues" (open_issues gh)
          (dict_set "github_forks" (forks gh)
            (dict_set "github_stars" (stars gh) e1))).

(** [history[-1000:]] when [len(history) > 1000], [history] otherwise. *)
Definition keep_last_1000 (history : list value) : list value :=
  if (1000 <? List.length history)%nat
  then skipn (List.length history - 1000) history
  else history.

(** One run: the files it leaves behind, and the snapshot it returns or
    the exception that ends it.  [data.json] is written before the history
    is touched, so a failing [history.append] leaves the new snapshot on
    disk. *)
Definition collect_all_stats (w : world) (fs : files)
  : files * result snapshot :=
  match build_data w fs with
  | Raise e => (fs, Raise e)
  | Ok (data, t, gh) =>
      let fs1 := {| DATA_FILE := Parsed (snapshot_value data);
                    HISTORY_FILE := HISTORY_FILE fs |} in
      match load_history fs1 with
      | VList history =>
          let history' := (history ++ [history_entry w t gh])%list in
          ({| DATA_FILE := DATA_FILE fs1;
              HISTORY_FILE := Parsed (VList (keep_last_1000 history')) |},
           Ok data)
      | _ => (fs1, Raise AttributeError)
      end
  end.

(** * Specification vocabulary *)

(** The number a value denotes ([0] for a value that is not a number). *)
Definition num (v : value) : Q :=
  match num_of v with
  | Some q => q
  | None => 0%Q
  end.

Definition is_number (v : value) : Prop := num_of v <> None.

Definition qsum (l : list Q) : Q := fold_right Qplus 0%Q l.

(** The posts the 24h scan of a community runs over. *)
Definition hot_listing (w : world) (subreddit : string) : list value :=
  match (pd <- hot_posts (http_get w (hot_url subreddit)) ;; py_iter pd) with
  | Ok posts => posts
  | Raise _ => []
  end.

(** The fields of a post, as the scan reads them. *)
Definition post_field (post : value) (k : string) : value :=
  match (p <- post_data post ;; py_get p k (VInt 0)) with
  | Ok v => v
  | Raise _ => VNone
  end.

Definition created_utc (post : value) : Q := num (post_field post "created_utc").
Definition score (post : value) : value := post_field post "score".
Definition num_comments (post : value) : value := post_field post "num_comments".

(** A post is within the window when it was created strictly after
    [now - 86400]. *)
Definition created_after (cutoff : Q) (post : value) : bool :=
  negb (Qle_bool (created_utc post) cutoff).

Definition within_24h (now : Q) (post : value) : bool :=
  created_after (now - 86400) post.

Definition qualifying (w : world) (subreddit : string) : list value :=
  filter (within_24h (utc_timestamp w subreddit)) (hot_listing w subreddit).

(** [m] is the maximum of the scores [l]: some score equals it and none
    exceeds it (equality of numbers, as [0 == 0.0] in Python). *)
Definition maximum_of (m : value) (l : list value) : Prop :=
  Exists (fun v => (num v == num m)%Q) l /\
  Forall (fun v => (num v <= num m)%Q) l.

(** The metadata object of a community: the ['data'] member of the body
    of its about response ([{}] when there is none). *)
Definition metadata (w : world) (subreddit : string) : list (string * value) :=
  match http_get w (about_url subreddit) with
  | Response _ (Some j) =>
      match py_get j "data" (VDict []) with
      | Ok (VDict about) => about
      | _ => []
      end
  | _ => []
  end.

(** The results of the communities whose fetch succeeded, in order. *)
Fixpoint available (w : world) (subs : list string) : list stats :=
  match subs with
  | [] => []
  | sub :: subs' =>
      match fetch_subreddit_stats w sub with
      | Some st => st :: available w subs'
      | None => available w subs'
      end
  end.

(** The integer a value denotes ([0] for a value that is not an integer). *)
Definition int (v : value) : Z :=
  match int_of v with
  | Some z => z
  | None => 0
  end.

Definition is_int (v : value) : Prop := int_of v <> None.

Definition zsum (l : list Z) : Z := fold_right Z.add 0 l.


(** The run counter a run returned, when it returned. *)
Definition points (r : result snapshot) : option Z :=
  match r with
  | Ok d => Some (data_points d)
  | Raise _ => None
  end.

(** [prev.get(section, {}).get(field)] on the previous snapshot, when the
    field is there. *)
Definition previous (fs : files) (section field : string) : option value :=
  match load_previous_data fs with
  | VDict d =>
      match lookup section d with
      | Some (VDict s) => lookup field s
      | _ => None
      end
  | _ => None
  end.

(** What the loop has established when it ends without raising. *)
Record scanned (day_ago : Q) (posts : list value) (c c' : counters) : Prop := {
  scanned_posts :
    c_posts_24h c' =
    c_posts_24h c + Z.of_nat (List.length (filter (created_after day_ago) posts));
  scanned_comments :
    is_number (c_comments_24h c) ->
    is_number (c_comments_24h c') /\
    (num (c_comments_24h c') ==
     num (c_comments_24h c) +
     qsum (map (fun p => num (num_comments p))
               (filter (created_after day_ago) posts)))%Q;
  scanned_upvotes :
    is_number (c_upvotes_24h c) ->
    is_number (c_upvotes_24h c') /\
    (num (c_upvotes_24h c') ==
     num (c_upvotes_24h c) +
     qsum (map (fun p => num (score p))
               (filter (created_after day_ago) posts)))%Q;
  scanned_top :
    is_number (c_top_score c) ->
    is_number (c_top_score c') /\
    (num (c_top_score c) <= num (c_top_score c'))%Q /\
    Forall (fun p => (num (score p) <= num (c_top_score c'))%Q)
           (filter (created_after day_ago) posts) /\
    (c_top_score c' = c_top_score c \/
     exists p, In p (filter (created_after day_ago) posts) /\
               score p = c_top_score c')
}.


(** * Example worlds

    Small concrete worlds on which the model is run. *)

Definition ok_json (v : value) : http_outcome := Response 200 (Some v).

Definition about_doc (fields : list (string * value)) : value :=
  VDict [("kind", VStr "t5"); ("data", VDict fields)].

Definition post_doc (created : Q) (score_ n : value) : value :=
  VDict [("kind", VStr "t3");
         ("data", VDict [("created_utc", VFloat created);
                         ("num_comments", n);
                         ("score", score_)])].

Definition listing_doc (posts : list value) : value :=
  VDict [("kind", VStr "Listing"); ("data", VDict [("children", VList posts)])].

Definition repo_doc (s f i : Z) : value :=
  VDict [("stargazers_count", VInt s); ("forks_count", VInt f);
         ("open_issues_count", VInt i)].

(** A server that knows the given pages and answers 404 to the rest. *)
Fixpoint serve (pages : list (string * http_outcome)) (url : string)
  : http_outcome :=
  match pages with
  | [] => Response 404 None
  | (u, r) :: pages' => if String.eqb url u then r else serve pages' url
  end.

Definition noon : Q := 1700000000.

Definition world_of (pages : list (string * http_outcome)) : world :=
  {| http_get := serve pages;
     utc_timestamp := fun _ => noon;
     timestamp := "2023-11-14T22:13:20Z";
     timestamp_local := "2023-11-15 06:13:20";
     timestamp_iso := "2023-11-15T06:13:20+08:00";
     time_local := "11/15 06:13" |}.

(** The end-to-end example of the specification: one community answers
    with 600 subscribers and two posts of the last day scored 10 and 20
    (and one older post), the others fail, the repository has 50 stars. *)
Definition demo_posts : list value :=
  [post_doc (noon - 3600) (VInt 10) (VInt 3);
   post_doc (noon - 86399) (VInt 20) (VInt 1);
   post_doc (noon - 86400) (VInt 99) (VInt 7)].

Definition demo_pages : list (string * http_outcome) :=
  [(about_url "clawdbot",
    ok_json (about_doc [("subscribers", VInt 600);
                        ("accounts_active", VNone)]));
   (hot_url "clawdbot", ok_json (listing_doc demo_posts));
   (about_url "moltbot", Response 403 None);
   (about_url "moltbothub", Failed);
   (github_url, ok_json (repo_doc 50 7 3))].

Definition demo : world := world_of demo_pages.

Definition demo_stats : stats :=
  {| name := "r/clawdbot"; key := "clawdbot";
     subscribers := VInt 600; active := VInt 0;
     posts_24h := VInt 2; comments := VInt 4; avg_score := VInt 15;
     total_upvotes := VInt 30; top_score := VInt 20 |}.

(** The same world with the repository endpoint down. *)
Definition repo_down : world :=
  world_of [(about_url "clawdbot",
             ok_json (about_doc [("subscribers", VInt 600)]));
            (github_url, Response 503 None)].

(** The same community with its hot listing refused. *)
Definition hot_refused : world :=
  world_of [(about_url "clawdbot",
             ok_json (about_doc [("subscribers", VInt 600);
                                 ("accounts_active", VInt 12)]));
            (hot_url "clawdbot", Response 429 None)].

(** A community whose only recent post has a negative score. *)
Definition downvoted : world :=
  world_of [(about_url "clawdbot",
             ok_json (about_doc [("subscribers", VInt 600)]));
            (hot_url "clawdbot",
             ok_json (listing_doc [post_doc (noon - 60) (VInt (-5)) (VInt 0)]))].

(** A community whose only recent post is scored 2^53 + 3. *)
Definition viral : world :=
  world_of [(about_url "clawdbot",
             ok_json (about_doc [("subscribers", VInt 600)]));
            (hot_url "clawdbot",
             ok_json (listing_doc
                        [post_doc (noon - 60) (VInt 9007199254740995) (VInt 0)]))].

(** A metadata response whose subscriber count is [null]. *)
Definition null_subscribers : world :=
  world_of [(about_url "clawdbot",
             ok_json (about_doc [("subscribers", VNone);
                                 ("accounts_active", VNone)]))].

(** A previous snapshot with 1000 subscribers, 50 stars and 9 forks. *)
Definition previous_snapshot : value :=
  VDict [("data_points", VInt 3);
         ("reddit", VDict [("total_subscribers", VInt 1000)]);
         ("github", VDict [("stars", VInt 50); ("forks", VInt 9);
                           ("open_issues", VInt 2)])].

Definition second_run : files :=
  {| DATA_FILE := Parsed previous_snapshot; HISTORY_FILE := Parsed (VList []) |}.

Definition first_run : files :=
  {| DATA_FILE := Absent; HISTORY_FILE := Absent |}.

(** A history that has reached its bound. *)
Definition old_entry (i : nat) : value :=
  VDict [("reddit_total", VInt (Z.of_nat i))].

Definition full_history : list value := map old_entry (seq 1 1000).

Definition full_run : files :=
  {| DATA_FILE := Absent; HISTORY_FILE := Parsed (VList full_history) |}.

(** * Proof support *)

(** Reading an [Ok r = Ok r'] hypothesis. *)
Ltac inv_ok H := injection H as H; try subst.

(** Reading a [bind m k = Ok b] hypothesis: [m] returned some [x]. *)
Ltac inv_bind H :=
  match type of H with
  | bind ?m _ = Ok _ =>
      let x := fresh "x" in
      let E := fresh "E" in
      destruct m as [x|] eqn:E; [cbn [bind] in H | discriminate H]
  end.

Ltac push_inject :=
  unfold Z.sub;
  repeat (rewrite inject_Z_plus || rewrite inject_Z_mult || rewrite inject_Z_opp);
  change (inject_Z 0) with 0%Q; change (inject_Z 1) with 1%Q;
  change (inject_Z 2) with 2%Q; change (inject_Z (-1)) with (-1)%Q;
  change (inject_Z (-2)) with (-2)%Q.

Ltac push_inject_in H :=
  unfold Z.sub in H;
  repeat (rewrite inject_Z_plus in H || rewrite inject_Z_mult in H
          || rewrite inject_Z_opp in H);
  change (inject_Z 0) with 0%Q in H; change (inject_Z 1) with 1%Q in H;
  change (inject_Z 2) with 2%Q in H; change (inject_Z (-1)) with (-1)%Q in H;
  change (inject_Z (-2)) with (-2)%Q in H.


(** * git_push *)

(** How [subprocess.run(cmd, cwd=repo_dir, check=True)] can end: the
    program ran and exited with a return code, or it could not be started
    at all (an [OSError], which [git_push] does not catch). *)
Inductive completed : Type :=
| Exited (returncode : Z)
| NotStarted.

(** The commands of a run are three different ones, so what the shell does
    is given per command. *)
Definition shell : Type := list string -> completed.

(** How a call of [git_push] ends. *)
Inductive pushed : Type :=
| Returned (b : bool)
| Uncaught.

Definition git_add : list string := ["git"; "add"; "-A"].
Definition git_commit (now : string) : list string :=
  ["git"; "commit"; "-m"; ("Update " ++ now)%string].
Definition git_push_cmd : list string := ["git"; "push"].

(** [subprocess.run(..., check=True)] inside the [try] of [git_push]: the
    command is logged; a zero return code lets [rest] run, a non-zero one
    is the [CalledProcessError] the function turns into [False]. *)
Definition checked_run (sh : shell) (cmd : list string)
  (rest : list (list string) * pushed) : list (list string) * pushed :=
  match sh cmd with
  | Exited code =>
      if code =? 0 then (cmd :: fst rest, snd rest)
      else ([cmd], Returned false)
  | NotStarted => ([cmd], Uncaught)
  end.

(** [git_push()]: the commands it ran, in order, and how it ended.  [now]
    is the formatted local time of the call. *)
Definition git_push (sh : shell) (now : string) : list (list string) * pushed :=
  checked_run sh git_add
    (checked_run sh (git_commit now)
       (checked_run sh git_push_cmd ([], Returned true))).

(** * Well-formed input *)

Definition numeric (v : value) : bool :=
  match num_of v with
  | Some _ => true
  | None => false
  end.

(** A post the scan can process: an object whose ['data'] is an object
    with a numeric creation time and, when the post is within the window,
    numeric comment count and score (each defaulting to 0). *)
Definition post_ok (cutoff : Q) (post : value) : bool :=
  match post with
  | VDict d =>
      match dict_get d "data" (VDict []) with
      | VDict p =>
          let created := dict_get p "created_utc" (VInt 0) in
          numeric created &&
          (if negb (Qle_bool (num created) cutoff)
           then numeric (dict_get p "num_comments" (VInt 0)) &&
                numeric (dict_get p "score" (VInt 0))
           else true)
      | _ => false
      end
  | _ => false
  end.

(** An [int] (or [bool]): the values on which the arithmetic of the
    script is exact. *)
Definition integral (v : value) : bool :=
  match int_of v with
  | Some _ => true
  | None => false
  end.

(** A post created within the window carries an integer comment count
    and an integer score. *)
Definition post_integral (cutoff : Q) (post : value) : bool :=
  if created_after cutoff post
  then integral (num_comments post) && integral (score post)
  else true.


(** The keys a community contributes to a history entry. *)
Definition subreddit_keys (k : string) : list string :=
  [(k ++ "_subs")%string; (k ++ "_active")%string; (k ++ "_posts")%string;
   (k ++ "_upvotes")%string; (k ++ "_comments")%string].

(** The three accumulators of the scan that depend on the posts hold
    integers. *)
Definition int_counters (c : counters) : Prop :=
  is_int (c_comments_24h c) /\ is_int (c_upvotes_24h c) /\
  is_int (c_top_score c).

(** * More example worlds *)

(** Good metadata, but the hot-posts request itself fails. *)
Definition hot_down : world :=
  world_of [(about_url "clawdbot",
             ok_json (about_doc [("subscribers", VInt 600)]));
            (hot_url "clawdbot", Failed)].

(** Nothing answers at all. *)
Definition outage : world := world_of [].

(** A shell in which every command succeeds, and one in which there is
    nothing to commit. *)
Definition shell_ok : shell := fun _ => Exited 0.

Definition nothing_to_commit : shell :=
  fun cmd =>
    match cmd with
    | _ :: "commit" :: _ => Exited 1
    | _ => Exited 0
    end.

(** * Reading a history entry *)

(** The entry a run appended: the last element of the persisted history. *)
Definition last_entry (fs : files) : list (string * value) :=
  match HISTORY_FILE fs with
  | Parsed (VList h) =>
      match last h VNone with
      | VDict e => e
      | _ => []
      end
  | _ => []
  end.

(** The five flattened items of a community in a history entry. *)
Definition subreddit_items (st : stats) : list (string * value) :=
  [((key st ++ "_subs")%string, subscribers st);
   ((key st ++ "_active")%string, active st);
   ((key st ++ "_posts")%string, posts_24h st);
   ((key st ++ "_upvotes")%string, total_upvotes st);
   ((key st ++ "_comments")%string, comments st)].

(** The keys of an entry that do not belong to a community. *)
Definition aggregate_keys : list string :=
  ["timestamp"; "time_local"; "reddit_total"; "reddit_active";
   "reddit_posts"; "reddit_upvotes"; "reddit_comments";
   "github_stars"; "github_forks"; "github_issues"].

(** Whether the fetch of a community returned a result. *)
Definition succeeded (w : world) (sub : string) : bool :=
  match fetch_subreddit_stats w sub with
  | Some _ => true
  | None => false
  end.

(** * When a run completes *)








(** The snapshot of a run in which nothing could be fetched. *)
Definition zero_reddit : Reddit.t :=
  {| Reddit.total_subscribers := VInt 0;
     Reddit.delta_subscribers := VInt 0;
     Reddit.total_active := VInt 0;
     Reddit.total_posts_24h := VInt 0;
     Reddit.total_comments := VInt 0;
     Reddit.total_upvotes := VInt 0;
     Reddit.subreddits := [] |}.

Definition zero_github : Github.t :=
  {| Github.stars := VInt 0; Github.stars_delta := VInt 0;
     Github.forks := VInt 0; Github.forks_delta := VInt 0;
     Github.open_issues := VInt 0 |}.


(** Responses that are JSON objects without the expected members. *)
Definition bare_responses : world :=
  world_of [(about_url "clawdbot", ok_json (VDict [("kind", VStr "t5")]));
            (hot_url "clawdbot",
             ok_json (VDict [("kind", VStr "Listing");
                             ("data", VDict [("after", VNone)])]))].
(** * Basic facts *)

Lemma py_get_dict (o : value) (k : string) (default v : value) :
  py_get o k default = Ok v ->
  exists d, o = VDict d /\ v = dict_get d k default.
Proof.
  destruct o; simpl; try discriminate.
  intro H; inv_ok H. eexists; split; reflexivity.
Qed.

Lemma int_of_num_of (v : value) (z : Z) :
  int_of v = Some z -> num_of v = Some (inject_Z z).
Proof.
  destruct v; simpl; try discriminate; intro H; inv_ok H; reflexivity.
Qed.

(** What a successful arithmetic operation says about its operands. *)
Lemma py_arith_ok (fz : Z -> Z -> Z) (fq : Q -> Q -> Q) (a b r : value) :
  (forall x y, (inject_Z (fz x y) == fq (inject_Z x) (inject_Z y))%Q) ->
  py_arith fz fq a b = Ok r ->
  is_number a /\ is_number b /\ is_number r /\
  (num r == fq (num a) (num b))%Q /\
  (forall x y, int_of a = Some x -> int_of b = Some y -> r = VInt (fz x y)).
Proof.
  intros Hf H. unfold py_arith in H.
  destruct (int_of a) as [x|] eqn:Ea.
  - destruct (int_of b) as [y|] eqn:Eb.
    + inv_ok H.
      pose proof (int_of_num_of _ _ Ea) as Na.
      pose proof (int_of_num_of _ _ Eb) as Nb.
      unfold is_number, num. rewrite Na, Nb. simpl.
      repeat split; try discriminate; auto.
      all: intros; congruence.
    + destruct (num_of a) as [p|] eqn:Na; [|discriminate].
      destruct (num_of b) as [q|] eqn:Nb; [|discriminate].
      destruct (fits_float a && fits_float b); [|discriminate].
      inv_ok H. unfold is_number, num. rewrite Na, Nb. simpl.
      repeat split; try discriminate; try reflexivity.
      all: intros; discriminate.
  - destruct (num_of a) as [p|] eqn:Na; [|discriminate].
    destruct (num_of b) as [q|] eqn:Nb; [|discriminate].
    destruct (fits_float a && fits_float b); [|discriminate].
    inv_ok H. unfold is_number, num. rewrite Na, Nb. simpl.
    repeat split; try discriminate; try reflexivity.
    all: intros; discriminate.
Qed.

Lemma py_add_ok (a b r : value) :
  py_add a b = Ok r ->
  is_number a /\ is_number b /\ is_number r /\
  (num r == num a + num b)%Q /\
  (forall x y, int_of a = Some x -> int_of b = Some y -> r = VInt (x + y)).
Proof. apply py_arith_ok. intros; rewrite inject_Z_plus; reflexivity. Qed.

Lemma py_sub_ok (a b r : value) :
  py_sub a b = Ok r ->
  is_number a /\ is_number b /\ is_number r /\
  (num r == num a - num b)%Q /\
  (forall x y, int_of a = Some x -> int_of b = Some y -> r = VInt (x - y)).
Proof.
  apply py_arith_ok. intros. unfold Z.sub, Qminus.
  rewrite inject_Z_plus, inject_Z_opp. reflexivity.
Qed.

Lemma py_gt_ok (a b : value) (c : bool) :
  py_gt a b = Ok c ->
  is_number a /\ is_number b /\ c = negb (Qle_bool (num a) (num b)).
Proof.
  unfold py_gt, is_number, num.
  destruct (num_of a); [|discriminate]. destruct (num_of b); [|discriminate].
  intro H; inv_ok H. repeat split; discriminate.
Qed.

Lemma gt_true_iff (x y : Q) : negb (Qle_bool x y) = true <-> (y < x)%Q.
Proof.
  rewrite negb_true_iff. split; intro H.
  - apply Qnot_le_lt. intro L. apply Qle_bool_iff in L. congruence.
  - destruct (Qle_bool x y) eqn:E; auto.
    apply Qle_bool_iff in E. exfalso. apply (Qlt_not_le _ _ H E).
Qed.

Lemma gt_false_iff (x y : Q) : negb (Qle_bool x y) = false <-> (x <= y)%Q.
Proof. rewrite negb_false_iff. apply Qle_bool_iff. Qed.

Lemma py_max_ok (a b r : value) :
  py_max a b = Ok r ->
  is_number a /\ is_number b /\ (r = a \/ r = b) /\
  (num a <= num r)%Q /\ (num b <= num r)%Q.
Proof.
  unfold py_max. intro H. inv_bind H. inv_ok H.
  apply py_gt_ok in E. destruct E as (Nb & Na & ->).
  repeat split; auto.
  - destruct (negb _); auto.
  - destruct (negb _) eqn:G.
    + apply gt_true_iff in G. lra.
    + lra.
  - destruct (negb _) eqn:G.
    + lra.
    + apply gt_false_iff in G. exact G.
Qed.

(** ** The 24h scan *)

Lemma post_field_ok (post p v : value) (k : string) :
  post_data post = Ok p -> py_get p k (VInt 0) = Ok v ->
  post_field post k = v.
Proof. unfold post_field. intros -> H. simpl. rewrite H. reflexivity. Qed.

(** One iteration either skips the post or counts it in all four
    variables. *)
Lemma scan_post_ok (day_ago : Q) (c c' : counters) (post : value) :
  scan_post day_ago c post = Ok c' ->
  (created_after day_ago post = false /\ c' = c) \/
  (created_after day_ago post = true /\
   c_posts_24h c' = c_posts_24h c + 1 /\
   py_add (c_comments_24h c) (num_comments post) = Ok (c_comments_24h c') /\
   py_add (c_upvotes_24h c) (score post) = Ok (c_upvotes_24h c') /\
   py_max (c_top_score c) (score post) = Ok (c_top_score c')).
Proof.
  unfold scan_post. intro H.
  inv_bind H. rename x into p, E into Ep.
  inv_bind H. rename x into created, E into Ec.
  inv_bind H. rename x into recent, E into Er.
  apply py_gt_ok in Er. destruct Er as (_ & _ & Er). simpl in Er.
  assert (Hc : created_after day_ago post = recent).
  { unfold created_after, created_utc, post_created in *.
    rewrite (post_field_ok _ _ _ _ Ep Ec). symmetry. exact Er. }
  destruct recent.
  - right.
    inv_bind H. rename x into n, E into En.
    inv_bind H. rename x into cm, E into Ecm.
    inv_bind H. rename x into sc, E into Esc.
    inv_bind H. rename x into up, E into Eup.
    inv_bind H. rename x into top, E into Etop.
    inv_ok H. simpl.
    unfold num_comments, score.
    rewrite (post_field_ok _ _ _ _ Ep En), (post_field_ok _ _ _ _ Ep Esc).
    auto.
  - left. inv_ok H. auto.
Qed.

Lemma scan_loop (day_ago : Q) (posts : list value) :
  forall c c', for_each (scan_post day_ago) c posts = Ok c' ->
               scanned day_ago posts c c'.
Proof.
  induction posts as [|post posts IH]; simpl; intros c c' H.
  - inv_ok H. constructor; simpl.
    + lia.
    + intro N; split; [exact N | lra].
    + intro N; split; [exact N | lra].
    + intro N. repeat split; auto. lra.
  - inv_bind H. rename x into c1.
    specialize (IH _ _ H). destruct IH as [IHp IHc IHu IHt].
    apply scan_post_ok in E.
    destruct E as [(Hq & ->) | (Hq & Ep & Ec & Eu & Et)].
    + constructor; simpl; rewrite Hq; assumption.
    + apply py_add_ok in Ec. destruct Ec as (_ & _ & Nc & Qc & _).
      apply py_add_ok in Eu. destruct Eu as (_ & Ns & Nu & Qu & _).
      apply py_max_ok in Et. destruct Et as (_ & _ & Rt & Lt1 & Lt2).
      constructor; simpl; rewrite Hq; simpl.
      * rewrite IHp, Ep. lia.
      * intros _. destruct (IHc Nc) as (N' & Q'). split; [exact N'|].
        rewrite Q', Qc. ring.
      * intros _. destruct (IHu Nu) as (N' & Q'). split; [exact N'|].
        rewrite Q', Qu. ring.
      * intros Nt.
        assert (Nt1 : is_number (c_top_score c1)).
        { destruct Rt as [-> | ->]; assumption. }
        destruct (IHt Nt1) as (N' & L' & F' & R').
        split; [exact N'|]. split; [lra|]. split.
        -- constructor; [lra | exact F'].
        -- destruct R' as [R' | (p & Hp & Sp)].
           ++ rewrite R'. destruct Rt as [-> | ->]; [left; reflexivity|].
              right. exists post. split; [left; reflexivity | reflexivity].
           ++ right. exists p. split; [right; exact Hp | exact Sp].
Qed.

(** ** Anatomy of a successful community fetch *)

Lemma fetch_subreddit_stats_ok (w : world) (sub : string) (st : stats) :
  fetch_subreddit_stats w sub = Some st ->
  exists j about c m quot,
    http_get w (about_url sub) = Response 200 (Some j) /\
    py_get j "data" (VDict []) = Ok (VDict about) /\
    scan_posts (utc_timestamp w sub - 86400) (hot_listing w sub) = Ok c /\
    py_max (VInt (c_posts_24h c)) (VInt 1) = Ok m /\
    py_truediv (c_upvotes_24h c) m = Ok quot /\
    py_round quot = Ok (avg_score st) /\
    name st = ("r/" ++ sub)%string /\
    key st = sub /\
    subscribers st = dict_get about "subscribers" (VInt 0) /\
    active st = py_or (dict_get about "accounts_active" (VInt 0)) (VInt 0) /\
    posts_24h st = VInt (c_posts_24h c) /\
    comments st = c_comments_24h c /\
    total_upvotes st = c_upvotes_24h c /\
    top_score st = c_top_score c.
Proof.
  unfold fetch_subreddit_stats, fetch_subreddit_stats_try, hot_listing.
  destruct (http_get w (about_url sub)) as [|status body]; [discriminate|].
  destruct (status =? 200) eqn:Es; cbn [bind except_none json negb]; [|discriminate].
  apply Z.eqb_eq in Es. subst status.
  destruct body as [j|]; cbn [bind except_none json negb]; [|discriminate].
  destruct (py_get j "data" (VDict [])) as [about|] eqn:Ea; cbn [bind except_none json negb];
    [|discriminate].
  destruct (hot_posts (http_get w (hot_url sub))) as [pd|]; cbn [bind except_none json negb];
    [|discriminate].
  destruct (py_iter pd) as [posts|]; cbn [bind except_none json negb]; [|discriminate].
  destruct (scan_posts _ posts) as [c|] eqn:Ec; cbn [bind except_none json negb]; [|discriminate].
  destruct (py_get about "subscribers" (VInt 0)) as [subs|] eqn:E1; cbn [bind except_none json negb];
    [|discriminate].
  destruct (py_get about "accounts_active" (VInt 0)) as [act|] eqn:E2; cbn [bind except_none json negb];
    [|discriminate].
  destruct (py_max (VInt (c_posts_24h c)) (VInt 1)) as [m|] eqn:Em; cbn [bind except_none json negb];
    [|discriminate].
  destruct (py_truediv (c_upvotes_24h c) m) as [quot|] eqn:Eq; cbn [bind except_none json negb];
    [|discriminate].
  destruct (py_round quot) as [avg|] eqn:Er; cbn [bind except_none json negb]; [|discriminate].
  intro H. inv_ok H.
  apply py_get_dict in E1. destruct E1 as (d & -> & ->).
  apply py_get_dict in E2. destruct E2 as (d' & Ed & ->). inv_ok Ed.
  exists j, d', c, m, quot. simpl. repeat split; auto.
Qed.

(** ** Rounding *)

Lemma round_half_even_cases (q : Q) :
  let f := Qfloor q in
  let r := (q - inject_Z f)%Q in
  (0 <= r)%Q /\ (r < 1)%Q /\
  ((r < 1 # 2)%Q /\ round_half_even q = f \/
   (1 # 2 < r)%Q /\ round_half_even q = f + 1 \/
   (r == 1 # 2)%Q /\
   round_half_even q = (if Z.even f then f else f + 1)).
Proof.
  intros f r.
  pose proof (Qfloor_le q) as Hlo. pose proof (Qlt_floor q) as Hhi.
  rewrite inject_Z_plus in Hhi. change (inject_Z 1) with 1%Q in Hhi.
  fold f in Hlo, Hhi.
  split; [unfold r; lra|]. split; [unfold r; lra|].
  unfold round_half_even. fold f. fold r.
  destruct (Qcompare r (1 # 2)) eqn:C.
  - right; right. split; [apply Qeq_alt; exact C | reflexivity].
  - left. split; [apply Qlt_alt; exact C | reflexivity].
  - right; left. split; [apply Qgt_alt; exact C | reflexivity].
Qed.

(** [round] returns an integer at distance at most one half. *)
Lemma round_half_even_nearest (q : Q) :
  (Qabs (q - inject_Z (round_half_even q)) <= 1 # 2)%Q.
Proof.
  destruct (round_half_even_cases q) as (H0 & H1 & [(H & ->) | [(H & ->) | (H & ->)]]).
  - apply Qabs_case; intros; lra.
  - rewrite inject_Z_plus. change (inject_Z 1) with 1%Q.
    apply Qabs_case; intros; lra.
  - destruct (Z.even (Qfloor q)).
    + apply Qabs_case; intros; lra.
    + rewrite inject_Z_plus. change (inject_Z 1) with 1%Q.
      apply Qabs_case; intros; lra.
Qed.

(** On a tie it returns the even neighbour. *)
Lemma round_half_even_tie (q : Q) :
  (Qabs (q - inject_Z (round_half_even q)) == 1 # 2)%Q ->
  Z.even (round_half_even q) = true.
Proof.
  destruct (round_half_even_cases q) as (H0 & H1 & [(H & ->) | [(H & ->) | (H & ->)]]).
  - apply Qabs_case; intros; lra.
  - rewrite inject_Z_plus. change (inject_Z 1) with 1%Q.
    apply Qabs_case; intros; lra.
  - intros _. destruct (Z.even (Qfloor q)) eqn:Ev; [exact Ev|].
    change (Qfloor q + 1) with (Z.succ (Qfloor q)).
    rewrite Z.even_succ, <- Z.negb_even, Ev. reflexivity.
Qed.

Lemma small_integer_is_zero (q : Q) (a : Z) :
  (q == 0)%Q -> (Qabs (q - inject_Z a) <= 1 # 2)%Q -> a = 0.
Proof.
  intros Hq H. apply Qabs_Qle_condition in H. destruct H as (Hl & Hu).
  assert (Hl' : (- (1 # 2) <= inject_Z a)%Q) by lra.
  assert (Hu' : (inject_Z a <= 1 # 2)%Q) by lra.
  unfold Qle in Hl', Hu'. simpl in Hl', Hu'. lia.
Qed.

Lemma py_max_int (a b : Z) : py_max (VInt a) (VInt b) = Ok (VInt (Z.max a b)).
Proof.
  unfold py_max, py_gt. simpl.
  destruct (Qle_bool (inject_Z b) (inject_Z a)) eqn:L; simpl.
  - apply Qle_bool_iff in L. rewrite <- Zle_Qle in L.
    rewrite Z.max_l by lia. reflexivity.
  - assert (a < b).
    { destruct (Z.lt_ge_cases a b) as [G|G]; [exact G|].
      rewrite Zle_Qle in G. apply Qle_bool_iff in G. congruence. }
    rewrite Z.max_r by lia. reflexivity.
Qed.

(** A quotient is a float, and both operands were numbers. *)
Lemma py_truediv_ok (a b r : value) :
  py_truediv a b = Ok r ->
  is_number a /\ is_number b /\ exists d, r = VFloat d.
Proof.
  unfold py_truediv, to_float, is_number.
  destruct (num_of a) as [x|]; [|discriminate].
  destruct (num_of b) as [y|]; [|discriminate].
  intro H. split; [discriminate|]. split; [discriminate|].
  destruct (int_of a), (int_of b).
  2-4: destruct (fits_float a && fits_float b); [|discriminate];
       destruct (Qeq_bool (round64 y) 0); [discriminate|].
  1: destruct (Qeq_bool y 0); [discriminate|].
  all: match type of H with
       | (if ?c then _ else _) = _ => destruct c; [|discriminate]
       end; inv_ok H; eexists; reflexivity.
Qed.

(** The quotient of two integers. *)
Lemma py_truediv_int (a : value) (t m : Z) :
  int_of a = Some t -> m <> 0 ->
  py_truediv a (VInt m) = to_float (inject_Z t / inject_Z m).
Proof.
  intros Ha Hm. unfold py_truediv.
  rewrite (int_of_num_of _ _ Ha), Ha. simpl.
  destruct (Qeq_bool (inject_Z m) 0) eqn:E; [|reflexivity].
  apply Qeq_bool_iff in E. unfold Qeq in E. simpl in E. lia.
Qed.

(** The average of a result is the rounding of the float its total
    divided by its post count gives, the count raised to one when it is
    zero. *)
Lemma avg_score_ok (w : world) (sub : string) (st : stats) :
  fetch_subreddit_stats w sub = Some st ->
  exists n d, posts_24h st = VInt n /\ is_number (total_upvotes st) /\
    py_truediv (total_upvotes st) (VInt (Z.max n 1)) = Ok (VFloat d) /\
    avg_score st = VInt (round_half_even d).
Proof.
  intro H. apply fetch_subreddit_stats_ok in H.
  destruct H as (j & about & c & m & quot & _ & _ & _ & Em & Eq & Er & _ & _
                 & _ & _ & Ep & _ & Eu & _).
  rewrite py_max_int in Em. inv_ok Em.
  destruct (py_truediv_ok _ _ _ Eq) as (Nu & _ & d & ->).
  exists (c_posts_24h c), d. rewrite Eu.
  split; [exact Ep|]. split; [exact Nu|]. split; [exact Eq|].
  simpl in Er. inv_ok Er. symmetry. exact Er.
Qed.

(** ** The loop over the communities *)

Lemma collect_sub_ok (w : world) (t t' : Totals.t) (sub : string) :
  collect_sub w t sub = Ok t' ->
  match fetch_subreddit_stats w sub with
  | None => t' = t
  | Some st =>
      Totals.subreddit_stats t' = (Totals.subreddit_stats t ++ [st])%list /\
      py_add (Totals.total_subs t) (subscribers st) = Ok (Totals.total_subs t') /\
      py_add (Totals.total_active t) (active st) = Ok (Totals.total_active t') /\
      py_add (Totals.total_posts t) (posts_24h st) = Ok (Totals.total_posts t') /\
      py_add (Totals.total_comments t) (comments st) = Ok (Totals.total_comments t') /\
      py_add (Totals.total_upvotes t) (total_upvotes st) = Ok (Totals.total_upvotes t')
  end.
Proof.
  unfold collect_sub. destruct (fetch_subreddit_stats w sub) as [st|].
  - intro H.
    inv_bind H. rename E into E1. inv_bind H. rename E into E2.
    inv_bind H. rename E into E3. inv_bind H. rename E into E4.
    inv_bind H. rename E into E5. inv_ok H. simpl.
    repeat split; assumption.
  - intro H. inv_ok H. reflexivity.
Qed.

Lemma collect_loop_stats (w : world) (subs : list string) :
  forall t t', for_each (collect_sub w) t subs = Ok t' ->
    Totals.subreddit_stats t' =
    (Totals.subreddit_stats t ++ available w subs)%list.
Proof.
  induction subs as [|sub subs IH]; simpl; intros t t' H.
  - inv_ok H. rewrite app_nil_r. reflexivity.
  - inv_bind H. apply collect_sub_ok in E. rewrite (IH _ _ H).
    destruct (fetch_subreddit_stats w sub) as [st|].
    + destruct E as (-> & _). rewrite <- app_assoc. reflexivity.
    + subst. reflexivity.
Qed.

Section OneTotal.
(** One accumulator [acc] of the loop and the field [fld] it adds up. *)
Variable w : world.
Variable acc : Totals.t -> value.
Variable fld : stats -> value.
Hypothesis acc_step : forall t t' sub st,
  collect_sub w t sub = Ok t' ->
  fetch_subreddit_stats w sub = Some st ->
  py_add (acc t) (fld st) = Ok (acc t').

Lemma collect_loop_total (subs : list string) :
  forall t t', for_each (collect_sub w) t subs = Ok t' ->
    is_number (acc t) ->
    let vs := map fld (available w subs) in
    is_number (acc t') /\
    Forall is_number vs /\
    (num (acc t') == num (acc t) + qsum (map num vs))%Q /\
    (forall x, acc t = VInt x -> Forall is_int vs ->
               acc t' = VInt (x + zsum (map int vs))).
Proof.
  induction subs as [|sub subs IH]; simpl; intros t t' H Nt.
  - inv_ok H. repeat split; auto.
    + lra.
    + intros x -> _. rewrite Z.add_0_r. reflexivity.
  - inv_bind H. rename x into t1.
    pose proof (collect_sub_ok _ _ _ _ E) as Hs.
    destruct (fetch_subreddit_stats w sub) as [st|] eqn:F.
    + apply (acc_step _ _ _ _ E) in F. apply py_add_ok in F.
      destruct F as (_ & Nf & N1 & Q1 & I1).
      destruct (IH _ _ H N1) as (Nt' & Fn & Qt & It).
      simpl. repeat split; auto.
      * rewrite Qt, Q1. ring.
      * intros x Hx Fi. inversion Fi as [|v l Iv Fl]; subst.
        unfold is_int in Iv. unfold int at 1.
        destruct (int_of (fld st)) as [y|] eqn:Iy; [|congruence].
        rewrite (It (x + y)); auto.
        -- f_equal. ring.
        -- apply I1; [rewrite Hx; reflexivity | reflexivity].
    + subst t1. apply (IH _ _ H Nt).
Qed.
End OneTotal.

(** ** Anatomy of a run *)

Lemma delta_ok (cur d : value) (ps : list (string * value)) (field : string) :
  delta cur (VDict ps) field = Ok d ->
  is_number cur /\ is_number d /\
  match lookup field ps with
  | None => (num d == 0)%Q /\ (is_int cur -> d = VInt 0)
  | Some p =>
      is_number p /\ (num d == num cur - num p)%Q /\
      (forall x y, int_of cur = Some x -> int_of p = Some y ->
                   d = VInt (x - y))
  end.
Proof.
  unfold delta. simpl. unfold dict_get. intro H.
  destruct (lookup field ps) as [p|].
  - apply py_sub_ok in H. destruct H as (Nc & Np & Nd & Qd & Id). auto.
  - apply py_sub_ok in H. destruct H as (Nc & _ & Nd & Qd & Id).
    repeat split; auto.
    + rewrite Qd. ring.
    + unfold is_int. intro Hi.
      destruct (int_of cur) as [x|] eqn:Ix; [|congruence].
      rewrite (Id x x eq_refl eq_refl). f_equal. ring.
Qed.

Lemma previous_ok (fs : files) (prev ps : list (string * value))
  (section field : string) :
  load_previous_data fs = VDict prev ->
  dict_get prev section (VDict []) = VDict ps ->
  previous fs section field = lookup field ps.
Proof.
  unfold previous, dict_get. intros -> H.
  destruct (lookup section prev) as [v|].
  - subst v. reflexivity.
  - inv_ok H. reflexivity.
Qed.

Lemma no_previous_data (fs : files) (section field : string) :
  (forall v, DATA_FILE fs <> Parsed v) -> previous fs section field = None.
Proof.
  unfold previous, load_previous_data. intro H.
  destruct (DATA_FILE fs) as [| |v]; try reflexivity.
  exfalso. apply (H v). reflexivity.
Qed.

Lemma build_data_ok (w : world) (fs : files) (data : snapshot)
  (t : Totals.t) (gh : repo) :
  build_data w fs = Ok (data, t, gh) ->
  exists prev prev_reddit prev_github n dsubs dstars dforks,
    load_previous_data fs = VDict prev /\
    dict_get prev "reddit" (VDict []) = VDict prev_reddit /\
    dict_get prev "github" (VDict []) = VDict prev_github /\
    for_each (collect_sub w) totals0 SUBREDDITS = Ok t /\
    gh = github_or_zero w /\
    py_len (load_history fs) = Ok n /\
    delta (Totals.total_subs t) (VDict prev_reddit) "total_subscribers"
      = Ok dsubs /\
    delta (stars gh) (VDict prev_github) "stars" = Ok dstars /\
    delta (forks gh) (VDict prev_github) "forks" = Ok dforks /\
    data =
      {| data_timestamp := timestamp w;
         data_timestamp_local := timestamp_local w;
         data_points := n + 1;
         reddit :=
           {| Reddit.total_subscribers := Totals.total_subs t;
              Reddit.delta_subscribers := dsubs;
              Reddit.total_active := Totals.total_active t;
              Reddit.total_posts_24h := Totals.total_posts t;
              Reddit.total_comments := Totals.total_comments t;
              Reddit.total_upvotes := Totals.total_upvotes t;
              Reddit.subreddits := Totals.subreddit_stats t |};
         github :=
           {| Github.stars := stars gh;
              Github.stars_delta := dstars;
              Github.forks := forks gh;
              Github.forks_delta := dforks;
              Github.open_issues := open_issues gh |} |}.
Proof.
  unfold build_data. intro H.
  inv_bind H. rename x into pr, E into Epr.
  inv_bind H. rename x into pg, E into Epg.
  inv_bind H. rename x into t0, E into Et.
  inv_bind H. rename x into n, E into En.
  inv_bind H. rename x into dsubs, E into Eds.
  inv_bind H. rename x into dstars, E into Edst.
  inv_bind H. rename x into dforks, E into Edf.
  inv_ok H.
  apply py_get_dict in Epr. destruct Epr as (prev & Hprev & ->).
  apply py_get_dict in Epg. destruct Epg as (prev' & Hprev' & ->).
  rewrite Hprev in Hprev'. inv_ok Hprev'.
  assert (Hr : exists ps, dict_get prev' "reddit" (VDict []) = VDict ps).
  { unfold delta in Eds. inv_bind Eds.
    apply py_get_dict in E. destruct E as (ps & -> & _). eauto. }
  assert (Hg : exists ps, dict_get prev' "github" (VDict []) = VDict ps).
  { unfold delta in Edst. inv_bind Edst.
    apply py_get_dict in E. destruct E as (ps & -> & _). eauto. }
  destruct Hr as (pr & Hr). destruct Hg as (pg & Hg).
  rewrite Hr in Eds. rewrite Hg in Edst, Edf.
  exists prev', pr, pg, n, dsubs, dstars, dforks.
  repeat split; auto.
Qed.

Lemma collect_all_stats_ok (w : world) (fs fs' : files) (data : snapshot) :
  collect_all_stats w fs = (fs', Ok data) ->
  exists t gh h,
    build_data w fs = Ok (data, t, gh) /\
    load_history fs = VList h /\
    fs' = {| DATA_FILE := Parsed (snapshot_value data);
             HISTORY_FILE :=
               Parsed (VList (keep_last_1000
                                (h ++ [history_entry w t gh]))) |}.
Proof.
  unfold collect_all_stats.
  destruct (build_data w fs) as [[[d t] gh]|e]; [|intro H; inv_ok H; discriminate].
  change (load_history
            {| DATA_FILE := Parsed (snapshot_value d);
               HISTORY_FILE := HISTORY_FILE fs |})
    with (load_history fs).
  destruct (load_history fs) as [| | | | |h|] eqn:Eh;
    try (intro H; inv_ok H; discriminate).
  intro H. injection H as Hfs Hd. subst.
  exists t, gh, h. auto.
Qed.

Lemma available_In (w : world) (subs : list string) (st : stats) :
  In st (available w subs) ->
  In (key st) subs /\ fetch_subreddit_stats w (key st) = Some st.
Proof.
  induction subs as [|sub subs IH]; simpl; [tauto|].
  destruct (fetch_subreddit_stats w sub) as [st'|] eqn:F.
  - intros [-> | Hin].
    + pose proof (fetch_subreddit_stats_ok _ _ _ F) as H.
      destruct H as (j & about & c & m & quot & _ & _ & _ & _ & _ & _ & _
                     & Hk & _).
      rewrite Hk. auto.
    + destruct (IH Hin). auto.
  - intro Hin. destruct (IH Hin). auto.
Qed.

Lemma metadata_failure (w : world) (sub : string) :
  http_get w (about_url sub) = Failed \/
  (exists status body,
     http_get w (about_url sub) = Response status body /\ status <> 200) ->
  fetch_subreddit_stats w sub = None.
Proof.
  unfold fetch_subreddit_stats, fetch_subreddit_stats_try.
  intros [-> | (status & body & -> & Hs)]; [reflexivity|].
  apply Z.eqb_neq in Hs. rewrite Hs. reflexivity.
Qed.

(** ** The bound on the history *)

Lemma keep_last_1000_length (l : list value) :
  List.length (keep_last_1000 l) = Nat.min (List.length l) 1000.
Proof.
  unfold keep_last_1000. destruct (1000 <? List.length l)%nat eqn:C.
  - apply Nat.ltb_lt in C. rewrite length_skipn. lia.
  - apply Nat.ltb_ge in C. lia.
Qed.

Lemma keep_last_1000_suffix (l : list value) :
  l = (firstn (List.length l - 1000) l ++ keep_last_1000 l)%list.
Proof.
  unfold keep_last_1000. destruct (1000 <? List.length l)%nat eqn:C.
  - symmetry. apply firstn_skipn.
  - apply Nat.ltb_ge in C.
    replace (List.length l - 1000)%nat with 0%nat by lia. reflexivity.
Qed.

Lemma keep_last_1000_short (l : list value) :
  (List.length l <= 1000)%nat -> keep_last_1000 l = l.
Proof.
  unfold keep_last_1000. intro H.
  destruct (1000 <? List.length l)%nat eqn:C; [|reflexivity].
  apply Nat.ltb_lt in C. lia.
Qed.

Lemma keep_last_1000_full (h : list value) (e : value) :
  List.length h = 1000%nat -> keep_last_1000 (h ++ [e]) = (tl h ++ [e])%list.
Proof.
  intro H. unfold keep_last_1000. rewrite length_app, H.
  change (List.length [e]) with 1%nat.
  replace (1000 <? 1000 + 1)%nat with true
    by (symmetry; apply Nat.ltb_lt; lia).
  replace (1000 + 1 - 1000)%nat with 1%nat by lia.
  destruct h as [|x h']; [discriminate H | reflexivity].
Qed.

Lemma run_data_points (w : world) (fs fs' : files) (data : snapshot) :
  collect_all_stats w fs = (fs', Ok data) ->
  exists h, load_history fs = VList h /\
    data_points data = Z.of_nat (List.length h) + 1 /\
    exists e, load_history fs' = VList (keep_last_1000 (h ++ [e])).
Proof.
  intro H. apply collect_all_stats_ok in H.
  destruct H as (t & gh & h & Hb & Hh & ->).
  exists h. split; [exact Hh|].
  apply build_data_ok in Hb.
  destruct Hb as (prev & pr & pg & n & ds & dst & df & _ & _ & _ & _ & _
                  & Hn & _ & _ & _ & ->).
  rewrite Hh in Hn. simpl in Hn. inv_ok Hn. split; [reflexivity|].
  exists (history_entry w t gh). reflexivity.
Qed.

(** ** Metadata fields *)

Lemma py_or_zero (v : value) :
  py_or v (VInt 0) <> VNone /\
  (py_or v (VInt 0) = VInt 0 \/
   py_or v (VInt 0) = v /\ truthy v = true).
Proof.
  unfold py_or. destruct (truthy v) eqn:T.
  - split; [|right; auto]. intros ->. discriminate.
  - split; [discriminate | left; reflexivity].
Qed.

Lemma available_complete (w : world) (subs : list string) (sub : string)
  (st : stats) :
  In sub subs -> fetch_subreddit_stats w sub = Some st ->
  In st (available w subs).
Proof.
  induction subs as [|s subs IH]; simpl; [tauto|].
  intros [-> | Hin] F.
  - rewrite F. left. reflexivity.
  - destruct (fetch_subreddit_stats w s); [right|]; apply IH; assumption.
Qed.
(** * Binary64 rounding *)

(** [round64] on some values, as CPython has them: [float(2**53 + 3)],
    [1 / 10] and [1 / 3]; the last integer that converts and the first
    that does not. *)
Example round64_values :
  Qred (round64 (inject_Z (2 ^ 53 + 3))) = inject_Z 9007199254740996 /\
  Qred (round64 (1 # 10)) = (3602879701896397 # 36028797018963968)%Q /\
  Qred (round64 (1 # 3)) = (6004799503160661 # 18014398509481984)%Q /\
  finite64 (round64 (inject_Z (2 ^ 1024 - 2 ^ 970 - 1))) = true /\
  finite64 (round64 (inject_Z (2 ^ 1024 - 2 ^ 970))) = false.
Proof. vm_compute. repeat split; reflexivity. Qed.

(** The operations at the edge of the float range: an integer too large
    for a float cannot be divided or added to a float, and a division
    by zero is an error of its own. *)
Example float_range_errors :
  py_truediv (VInt (10 ^ 400)) (VInt 1) = Raise OverflowError /\
  py_add (VInt (10 ^ 400)) (VFloat (1 # 2)) = Raise OverflowError /\
  py_add (VInt (10 ^ 400)) (VInt 1) = Ok (VInt (10 ^ 400 + 1)) /\
  py_truediv (VInt 1) (VInt 0) = Raise ZeroDivisionError /\
  (q <- py_truediv (VInt 30) (VInt 2) ;; py_round q) = Ok (VInt 15) /\
  (q <- py_truediv (VInt 5) (VInt 2) ;; py_round q) = Ok (VInt 2).
Proof. vm_compute. repeat split; reflexivity. Qed.

(** [round] respects the equality of rationals. *)
Lemma round_half_even_comp (p q : Q) :
  (p == q)%Q -> round_half_even p = round_half_even q.
Proof.
  intro E. unfold round_half_even. rewrite (Qfloor_comp _ _ E).
  assert (C : Qcompare (p - inject_Z (Qfloor q)) (1 # 2) =
              Qcompare (q - inject_Z (Qfloor q)) (1 # 2)).
  { apply Qcompare_comp; [rewrite E; reflexivity | reflexivity]. }
  rewrite C. reflexivity.
Qed.

Lemma round_half_even_bounds (q : Q) :
  (q - (1 # 2) <= inject_Z (round_half_even q) <= q + (1 # 2))%Q.
Proof.
  pose proof (round_half_even_nearest q) as N.
  apply Qabs_Qle_condition in N. lra.
Qed.

(** Strictly below the half: rounds down. *)
Lemma round_half_even_lower (d : Q) (f : Z) :
  (inject_Z f <= d)%Q -> (d < inject_Z f + (1 # 2))%Q -> round_half_even d = f.
Proof.
  intros H1 H2. pose proof (round_half_even_bounds d) as (B1 & B2).
  assert (L1 : (inject_Z f - 1 < inject_Z (round_half_even d))%Q) by lra.
  assert (L2 : (inject_Z (round_half_even d) < inject_Z f + 1)%Q) by lra.
  unfold Qlt in L1, L2. simpl in L1, L2. lia.
Qed.

(** Strictly above the half: rounds up. *)
Lemma round_half_even_upper (d : Q) (f : Z) :
  (inject_Z f + (1 # 2) < d)%Q -> (d <= inject_Z f + 1)%Q ->
  round_half_even d = f + 1.
Proof.
  intros H1 H2. pose proof (round_half_even_bounds d) as (B1 & B2).
  assert (L1 : (inject_Z f < inject_Z (round_half_even d))%Q) by lra.
  assert (L2 : (inject_Z (round_half_even d) < inject_Z f + 2)%Q) by lra.
  unfold Qlt in L1, L2. simpl in L1, L2. lia.
Qed.

(** From a rational fact to an integer one, for [q = t / m]. *)
Lemma scaled_le0 (q : Q) (t m a b : Z) :
  0 < m -> (q * inject_Z m == inject_Z t)%Q ->
  (inject_Z a + inject_Z b * q <= 0)%Q -> a * m + b * t <= 0.
Proof.
  intros Hm E H.
  assert (Hq : (0 <= inject_Z m)%Q) by (rewrite <- (Zle_Qle 0); lia).
  apply (Qmult_le_compat_r _ _ _ H) in Hq.
  setoid_replace ((inject_Z a + inject_Z b * q) * inject_Z m)%Q
    with (inject_Z a * inject_Z m + inject_Z b * (q * inject_Z m))%Q in Hq
    by ring.
  rewrite E in Hq. rewrite <- !inject_Z_mult, <- inject_Z_plus in Hq.
  setoid_replace (0 * inject_Z m)%Q with (inject_Z 0) in Hq by ring.
  rewrite <- Zle_Qle in Hq. exact Hq.
Qed.

Lemma scaled_lt0 (q : Q) (t m a b : Z) :
  0 < m -> (q * inject_Z m == inject_Z t)%Q ->
  (inject_Z a + inject_Z b * q < 0)%Q -> a * m + b * t < 0.
Proof.
  intros Hm E H.
  assert (Hq : (0 < inject_Z m)%Q) by (rewrite <- (Zlt_Qlt 0); lia).
  apply (Qmult_lt_compat_r _ _ _ Hq) in H.
  setoid_replace ((inject_Z a + inject_Z b * q) * inject_Z m)%Q
    with (inject_Z a * inject_Z m + inject_Z b * (q * inject_Z m))%Q in H
    by ring.
  rewrite E in H. rewrite <- !inject_Z_mult, <- inject_Z_plus in H.
  setoid_replace (0 * inject_Z m)%Q with (inject_Z 0) in H by ring.
  rewrite <- Zlt_Qlt in H. exact H.
Qed.

(** Rounding [t / m] first to a multiple of [1 / S], for an even [S]
    above [m], and then to an integer gives the integer nearest to
    [t / m]: the first rounding cannot reach a half-integer it did not
    start from. *)
Lemma round_twice (q : Q) (t m S : Z) :
  0 < m -> m < S -> Z.even S = true ->
  (q * inject_Z m == inject_Z t)%Q ->
  round_half_even (inject_Z (round_half_even (q * inject_Z S)) / inject_Z S)
  = round_half_even q.
Proof.
  intros Hm HS Hev E.
  set (M := round_half_even (q * inject_Z S)).
  set (f := Qfloor q).
  assert (HSq : (0 < inject_Z S)%Q) by (rewrite <- (Zlt_Qlt 0); lia).
  pose proof (round_half_even_bounds (q * inject_Z S)) as (B1 & B2).
  fold M in B1, B2.
  assert (Z4 : (2 * M - 1) * m + (- (2 * S)) * t <= 0).
  { apply (scaled_le0 q); auto.
    push_inject. lra. }
  assert (Z5 : (- (2 * M) - 1) * m + (2 * S) * t <= 0).
  { apply (scaled_le0 q); auto.
    push_inject. lra. }
  pose proof (Qfloor_le q) as F1. pose proof (Qlt_floor q) as F2.
  fold f in F1, F2. push_inject_in F2.
  assert (Z1 : f * m + (-1) * t <= 0).
  { apply (scaled_le0 q); auto. push_inject. lra. }
  assert (Z2 : (- f - 1) * m + 1 * t < 0).
  { apply (scaled_lt0 q); auto.
    push_inject. lra. }
  destruct (round_half_even_cases q) as (_ & _ & [(C & ->) | [(C & ->) | (C & R)]]);
    fold f in C |- *.
  - assert (Z3 : (- (2 * f) - 1) * m + 2 * t < 0).
    { apply (scaled_lt0 q); auto.
      push_inject. lra. }
    apply round_half_even_lower.
    + apply Qle_shift_div_l; [exact HSq|].
      rewrite <- inject_Z_mult, <- Zle_Qle. nia.
    + apply Qlt_shift_div_r; [exact HSq|].
      assert (2 * M < (2 * f + 1) * S) by nia.
      assert (L : (inject_Z (2 * M) < inject_Z ((2 * f + 1) * S))%Q)
        by (rewrite <- Zlt_Qlt; assumption).
      push_inject_in L. lra.
  - assert (Z3 : (2 * f + 1) * m + (- 2) * t < 0).
    { apply (scaled_lt0 q); auto.
      push_inject. lra. }
    apply round_half_even_upper.
    + apply Qlt_shift_div_l; [exact HSq|].
      assert ((2 * f + 1) * S < 2 * M) by nia.
      assert (L : (inject_Z ((2 * f + 1) * S) < inject_Z (2 * M))%Q)
        by (rewrite <- Zlt_Qlt; assumption).
      push_inject_in L. lra.
    + apply Qle_shift_div_r; [exact HSq|].
      assert (M <= (f + 1) * S) by nia.
      assert (L : (inject_Z M <= inject_Z ((f + 1) * S))%Q)
        by (rewrite <- Zle_Qle; assumption).
      push_inject_in L. lra.
  - assert (Z3 : (2 * f + 1) * m + (- 2) * t <= 0).
    { apply (scaled_le0 q); auto.
      push_inject. lra. }
    assert (Z3' : (- (2 * f) - 1) * m + 2 * t <= 0).
    { apply (scaled_le0 q); auto.
      push_inject. lra. }
    apply Z.even_spec in Hev. destruct Hev as (S' & HS').
    assert (HM : 2 * M = (2 * f + 1) * S) by nia.
    apply round_half_even_comp.
    assert (L : (inject_Z (2 * M) == inject_Z ((2 * f + 1) * S))%Q)
      by (rewrite HM; reflexivity).
    push_inject_in L.
    apply (Qmult_inj_r _ _ (inject_Z S)); [lra|].
    unfold Qdiv. rewrite <- Qmult_assoc, (Qmult_comm (/ _)), Qmult_inv_r by lra.
    assert (Eq : (q == inject_Z f + (1 # 2))%Q) by lra.
    rewrite Eq. lra.
Qed.

Lemma pow2_pos (e : Z) : (0 < 2 ^ e)%Q.
Proof. apply Qpower_0_lt. reflexivity. Qed.

(** ** The leading bit *)

Lemma log2_bounds (a : Z) :
  0 < a ->
  (2 ^ Z.log2 a <= inject_Z a)%Q /\ (inject_Z a < 2 ^ (Z.log2 a + 1))%Q.
Proof.
  intro Ha. destruct (Z.log2_spec a Ha) as (L & U).
  pose proof (Z.log2_nonneg a) as N.
  change 2%Q with (inject_Z 2).
  rewrite <- !Zpower_Qpower by lia. rewrite <- Zle_Qle, <- Zlt_Qlt.
  unfold Z.succ in U. split; assumption.
Qed.

Lemma exponent_bounds (q : Q) :
  ~ (q == 0)%Q ->
  (2 ^ exponent q <= Qabs q)%Q /\ (Qabs q < 2 ^ (exponent q + 1))%Q.
Proof.
  intro Hq. unfold exponent.
  set (a := Z.abs (Qnum q)). set (b := Zpos (Qden q)).
  assert (Ha : 0 < a).
  { unfold a. assert (Qnum q <> 0); [|lia].
    intro E. apply Hq. unfold Qeq. simpl. rewrite E. reflexivity. }
  assert (Hb : 0 < b) by (unfold b; lia).
  destruct (log2_bounds a Ha) as (A1 & A2).
  destruct (log2_bounds b Hb) as (B1 & B2).
  assert (Habs : (Qabs q == inject_Z a / inject_Z b)%Q).
  { destruct q as [n d]. unfold a, b. simpl. apply Qmake_Qdiv. }
  assert (Hbq : (0 < inject_Z b)%Q) by (rewrite <- (Zlt_Qlt 0); exact Hb).
  set (la := Z.log2 a) in *. set (lb := Z.log2 b) in *.
  destruct (Qle_bool (2 ^ (la - lb)) (Qabs q)) eqn:T.
  - apply Qle_bool_iff in T. split; [exact T|].
    rewrite Habs. apply Qlt_shift_div_r; [exact Hbq|].
    apply Qlt_le_trans with (2 ^ (la - lb + 1) * 2 ^ lb)%Q.
    + rewrite <- Qpower_plus by discriminate.
      replace (la - lb + 1 + lb) with (la + 1) by lia. exact A2.
    + apply Qmult_le_l; [apply pow2_pos | exact B1].
  - assert (T' : (Qabs q < 2 ^ (la - lb))%Q).
    { apply Qnot_le_lt. intro L. apply Qle_bool_iff in L. congruence. }
    split.
    + rewrite Habs. apply Qle_shift_div_l; [exact Hbq|].
      apply Qle_trans with (2 ^ (la - lb - 1) * 2 ^ (lb + 1))%Q.
      * apply Qmult_le_l; [apply pow2_pos | apply Qlt_le_weak; exact B2].
      * rewrite <- Qpower_plus by discriminate.
        replace (la - lb - 1 + (lb + 1)) with la by lia. exact A1.
    + replace (la - lb - 1 + 1) with (la - lb) by lia. exact T'.
Qed.

(** The rounding error is at most half a unit in the last place. *)
Lemma round64_error (q : Q) :
  ~ (q == 0)%Q ->
  let e := Z.max (exponent q - 52) (-1074) in
  (Qabs (round64 q - q) <= 2 ^ e * (1 # 2))%Q.
Proof.
  intros Hq e. unfold round64.
  destruct (Qeq_bool q 0) eqn:Z0; [apply Qeq_bool_iff in Z0; contradiction|].
  fold e. pose proof (pow2_pos e) as P.
  pose proof (round_half_even_bounds (q / 2 ^ e)) as (B1 & B2).
  set (M := inject_Z (round_half_even (q / 2 ^ e))) in *.
  assert (E : (M * 2 ^ e - q == (M - q / 2 ^ e) * 2 ^ e)%Q) by (field; lra).
  rewrite E.
  assert (U : ((M - q / 2 ^ e) * 2 ^ e <= (1 # 2) * 2 ^ e)%Q)
    by (apply Qmult_le_compat_r; lra).
  assert (L : ((- (1 # 2)) * 2 ^ e <= (M - q / 2 ^ e) * 2 ^ e)%Q)
    by (apply Qmult_le_compat_r; lra).
  apply Qabs_Qle_condition. lra.
Qed.

(** ** Results that stay in range *)

Lemma round_half_even_small (x : Q) :
  (Qabs x < 1 # 2)%Q -> round_half_even x = 0.
Proof.
  intro H. apply Qabs_Qlt_condition in H.
  pose proof (round_half_even_bounds x) as (B1 & B2).
  assert (L1 : (inject_Z 0 - 1 < inject_Z (round_half_even x))%Q)
    by (change (inject_Z 0) with 0%Q; lra).
  assert (L2 : (inject_Z (round_half_even x) < inject_Z 0 + 1)%Q)
    by (change (inject_Z 0) with 0%Q; lra).
  unfold Qlt in L1, L2. simpl in L1, L2. lia.
Qed.

Lemma finite64_lt (d : Q) :
  (Qabs d < 2 ^ 1024)%Q -> finite64 d = true.
Proof.
  intro H. unfold finite64. destruct (Qle_bool (2 ^ 1024) (Qabs d)) eqn:E;
    [|reflexivity].
  apply Qle_bool_iff in E. exfalso. apply (Qlt_not_le _ _ H E).
Qed.

Lemma Qabs_triangle_near (d q r : Q) :
  (Qabs (d - q) <= r)%Q -> (Qabs d <= Qabs q + r)%Q.
Proof.
  intro H. apply Qabs_Qle_condition in H.
  apply Qabs_Qle_condition. revert H.
  apply (Qabs_case q); intros; lra.
Qed.

(** The unit in the last place of a number that is not subnormal is at
    most that number scaled by [2 ^ -52]. *)
Lemma round64_finite (q : Q) :
  (Qabs q < 2 ^ 1023)%Q -> finite64 (round64 q) = true.
Proof.
  intro H. apply finite64_lt.
  destruct (Qeq_dec q 0) as [Z0 | NZ].
  - unfold round64. apply Qeq_bool_iff in Z0. rewrite Z0. reflexivity.
  - pose proof (round64_error q NZ) as Err. cbv zeta in Err.
    destruct (exponent_bounds q NZ) as (Lo & _).
    set (ex := exponent q) in *.
    set (e := Z.max (ex - 52) (-1074)) in *.
    apply Qabs_triangle_near in Err.
    assert (P : (2 ^ e <= Qabs q + 1)%Q).
    { destruct (Z.le_ge_cases (-1074) (ex - 52)) as [N | N].
      - unfold e. rewrite Z.max_l by lia.
        apply Qle_trans with (2 ^ ex)%Q.
        + apply Qpower_le_compat_l; [lia | discriminate].
        + lra.
      - unfold e. rewrite Z.max_r by lia.
        pose proof (Qabs_nonneg q).
        apply Qle_trans with 1%Q; [|lra].
        change 1%Q with (2 ^ 0)%Q.
        apply Qpower_le_compat_l; [lia | discriminate]. }
    assert (C : (2 ^ 1023 + 2 ^ 1023 == 2 ^ 1024)%Q) by reflexivity.
    assert (One : (1 <= 2 ^ 1023)%Q) by discriminate.
    pose proof (Qabs_nonneg q). lra.
Qed.

Lemma Qabs_inject_Z (t : Z) : Qabs (inject_Z t) = inject_Z (Z.abs t).
Proof. reflexivity. Qed.

(** Dividing an integer below [2 ^ 52] in magnitude by a positive
    integer in binary64 and rounding the quotient gives the same integer
    as rounding the exact quotient. *)
Lemma round64_quotient (q : Q) (t m : Z) :
  0 < m -> Z.abs t < 2 ^ 52 ->
  (q * inject_Z m == inject_Z t)%Q ->
  round_half_even (round64 q) = round_half_even q /\
  finite64 (round64 q) = true.
Proof.
  intros Hm Ht E.
  assert (Hmq : (1 <= inject_Z m)%Q) by (rewrite <- (Zle_Qle 1); lia).
  assert (Habs : (Qabs q * inject_Z m == inject_Z (Z.abs t))%Q).
  { rewrite <- Qabs_inject_Z, <- E, Qabs_Qmult, (Qabs_pos (inject_Z m)) by lra.
    reflexivity. }
  assert (Hsmall : (Qabs q < 2 ^ 52)%Q).
  { pose proof (Qabs_nonneg q) as N.
    apply Qle_lt_trans with (inject_Z (Z.abs t)).
    - rewrite <- Habs. rewrite <- (Qmult_1_r (Qabs q)) at 1.
      destruct (Qeq_dec (Qabs q) 0) as [Z0 | NZ].
      + rewrite Z0. lra.
      + apply Qmult_le_l; [lra | exact Hmq].
    - change (2 ^ 52)%Q with (inject_Z (2 ^ 52)). rewrite <- Zlt_Qlt. exact Ht. }
  split.
  2: { apply round64_finite. apply Qlt_trans with (2 ^ 52)%Q; [exact Hsmall|].
       reflexivity. }
  destruct (Qeq_dec q 0) as [Z0 | NZ].
  - unfold round64. pose proof Z0 as Z0'. apply Qeq_bool_iff in Z0'.
    rewrite Z0'. apply round_half_even_comp. symmetry. exact Z0.
  - destruct (exponent_bounds q NZ) as (Lo & Hi).
    pose proof (round64_error q NZ) as Err. cbv zeta in Err.
    unfold round64 in *.
    destruct (Qeq_bool q 0) eqn:Z0; [apply Qeq_bool_iff in Z0; contradiction|].
    set (ex := exponent q) in *.
    assert (Hex : ex < 52).
    { apply (Qpower_lt_compat_l_inv 2); [|reflexivity].
      apply Qle_lt_trans with (Qabs q); assumption. }
    destruct (Z.le_ge_cases (-1074) (ex - 52)) as [N | N].
    + rewrite Z.max_l in * by lia.
      set (S := 2 ^ (52 - ex)).
      assert (HS : (inject_Z S == 2 ^ (52 - ex))%Q).
      { unfold S. rewrite Zpower_Qpower by lia. reflexivity. }
      assert (HSpos : (0 < inject_Z S)%Q) by (rewrite HS; apply pow2_pos).
      assert (Hinv : (2 ^ (ex - 52) == / inject_Z S)%Q).
      { rewrite HS, <- Qpower_opp. replace (- (52 - ex)) with (ex - 52) by lia.
        reflexivity. }
      assert (Hd : (inject_Z (round_half_even (q / 2 ^ (ex - 52))) *
                    2 ^ (ex - 52) ==
                    inject_Z (round_half_even (q * inject_Z S)) / inject_Z S)%Q).
      { assert (R : round_half_even (q / 2 ^ (ex - 52)) =
                    round_half_even (q * inject_Z S)).
        { apply round_half_even_comp. unfold Qdiv. rewrite Hinv.
          rewrite Qinv_involutive. reflexivity. }
        rewrite R. unfold Qdiv. rewrite Hinv. reflexivity. }
      rewrite (round_half_even_comp _ _ Hd).
      apply (round_twice q t m S); auto.
      * rewrite Zlt_Qlt, HS.
        apply (Qmult_lt_l _ _ (2 ^ ex)); [apply pow2_pos|].
        rewrite <- Qpower_plus by discriminate.
        replace (ex + (52 - ex)) with 52 by lia.
        apply Qle_lt_trans with (Qabs q * inject_Z m)%Q.
        -- apply Qmult_le_compat_r; [exact Lo | lra].
        -- rewrite Habs. change (2 ^ 52)%Q with (inject_Z (2 ^ 52)).
           rewrite <- Zlt_Qlt. exact Ht.
      * unfold S. rewrite Z.even_pow by lia. reflexivity.
    + rewrite Z.max_r in * by lia.
      assert (Hq : (Qabs q < 1 # 4)%Q).
      { apply Qlt_le_trans with (2 ^ (ex + 1))%Q; [exact Hi|].
        apply Qle_trans with (2 ^ (-2))%Q; [|discriminate].
        apply Qpower_le_compat_l; [lia | discriminate]. }
      assert (He : (2 ^ (-1074) * (1 # 2) <= 1 # 4)%Q) by discriminate.
      apply Qabs_triangle_near in Err.
      rewrite (round_half_even_small q) by lra.
      apply round_half_even_small. lra.
Qed.

(** ** The average of a community *)

(** For an integer total below 2^52 in magnitude the float quotient
    rounds to the same integer as the exact quotient. *)
Lemma avg_score_exact (w : world) (sub : string) (st : stats) :
  fetch_subreddit_stats w sub = Some st ->
  is_int (total_upvotes st) ->
  Z.abs (int (total_upvotes st)) < 2 ^ 52 ->
  exists n d,
    posts_24h st = VInt n /\
    py_truediv (total_upvotes st) (VInt (Z.max n 1)) = Ok (VFloat d) /\
    avg_score st = VInt (round_half_even d) /\
    round_half_even d =
    round_half_even (num (total_upvotes st) / inject_Z (Z.max n 1)).
Proof.
  intros H Hi Hb.
  destruct (avg_score_ok _ _ _ H) as (n & d & Hn & Nu & Hd & Ha).
  exists n, d. split; [exact Hn|]. split; [exact Hd|]. split; [exact Ha|].
  unfold is_int in Hi. unfold int in Hb.
  destruct (int_of (total_upvotes st)) as [t|] eqn:Et; [|congruence].
  assert (Hm : 0 < Z.max n 1) by lia.
  assert (Hq : (inject_Z t / inject_Z (Z.max n 1) * inject_Z (Z.max n 1) ==
                inject_Z t)%Q).
  { field. intro E. unfold Qeq in E. simpl in E. lia. }
  destruct (round64_quotient _ _ _ Hm Hb Hq) as (Hr & Hfin).
  rewrite (py_truediv_int _ _ _ Et) in Hd by lia.
  unfold to_float in Hd. rewrite Hfin in Hd. inv_ok Hd.
  rewrite Hr. apply round_half_even_comp.
  unfold num. rewrite (int_of_num_of _ _ Et). reflexivity.
Qed.

(** A total of zero averages to zero, whatever its type. *)
Lemma average_of_zero (u : value) (m : Z) (d : Q) :
  (num u == 0)%Q ->
  py_truediv u (VInt m) = Ok (VFloat d) ->
  round_half_even d = 0.
Proof.
  intros Hz H. unfold py_truediv, to_float, num in *.
  destruct (num_of u) as [x|]; [|discriminate].
  cbn [num_of int_of] in H.
  assert (Hx : Qeq_bool x 0 = true) by (apply Qeq_bool_iff; exact Hz).
  assert (Hq : forall y, round64 (x / y) = 0%Q).
  { intro y. unfold round64.
    assert (E : Qeq_bool (x / y) 0 = true).
    { apply Qeq_bool_iff. unfold Qdiv. rewrite Hz. ring. }
    rewrite E. reflexivity. }
  destruct (int_of u).
  - destruct (Qeq_bool (inject_Z m) 0); [discriminate|].
    rewrite Hq in H. cbn in H. inv_ok H. reflexivity.
  - destruct (fits_float u && fits_float (VInt m)); [|discriminate].
    destruct (Qeq_bool (round64 (inject_Z m)) 0); [discriminate|].
    assert (E : round64 (round64 x / round64 (inject_Z m)) = 0%Q).
    { unfold round64 at 2. rewrite Hx.
      unfold round64 at 1.
      assert (E : Qeq_bool (0 / round64 (inject_Z m)) 0 = true).
      { apply Qeq_bool_iff. unfold Qdiv. ring. }
      rewrite E. reflexivity. }
    rewrite E in H. cbn in H. inv_ok H. reflexivity.
Qed.

(** * The community fetcher *)

(** C3, as stated, fails: the quotient is a binary64 float before it is
    rounded.  A community whose only post of the day is scored
    2^53 + 3 = 9007199254740995 has that total and one qualifying post,
    and reports the average 9007199254740996, the float nearest to the
    quotient; it is at distance 1 from the quotient, whose nearest
    integer is the total itself. *)
Lemma avg_score_differs_from_rounded_mean :
  fetch_subreddit_stats viral "clawdbot" =
    Some {| name := "r/clawdbot"; key := "clawdbot";
            subscribers := VInt 600; active := VInt 0;
            posts_24h := VInt 1; comments := VInt 0;
            avg_score := VInt 9007199254740996;
            total_upvotes := VInt 9007199254740995;
            top_score := VInt 9007199254740995 |} /\
  ~ (exists st n a,
       fetch_subreddit_stats viral "clawdbot" = Some st /\
       posts_24h st = VInt n /\ avg_score st = VInt a /\
       a = round_half_even
             (num (total_upvotes st) / inject_Z (Z.max n 1))).
Proof.
  split; [vm_compute; reflexivity|].
  intros (st & n & a & Hf & Hn & Ha & Hr).
  assert (E : fetch_subreddit_stats viral "clawdbot" =
              Some {| name := "r/clawdbot"; key := "clawdbot";
                      subscribers := VInt 600; active := VInt 0;
                      posts_24h := VInt 1; comments := VInt 0;
                      avg_score := VInt 9007199254740996;
                      total_upvotes := VInt 9007199254740995;
                      top_score := VInt 9007199254740995 |})
    by (vm_compute; reflexivity).
  rewrite E in Hf. injection Hf as <-. simpl in Hn, Ha, Hr.
  injection Hn as <-. injection Ha as <-.
  vm_compute in Hr. discriminate.
Qed.

(** C3, amended.  The average score of a community result is [round] of
    the float that the total 24h score divided by [max(posts_24h, 1)]
    gives.  When the total is an integer of magnitude below 2^52 this is
    the exact quotient rounded to the nearest integer: it lies within
    one half of the quotient, and on a tie it is the even neighbour.  It
    is 0 when there is no qualifying post and the total is 0. *)
Theorem avg_score_is_rounded_quotient (w : world) (sub : string)
  (st : stats) :
  fetch_subreddit_stats w sub = Some st ->
  exists n a,
    posts_24h st = VInt n /\ avg_score st = VInt a /\
    is_number (total_upvotes st) /\
    (exists d,
       py_truediv (total_upvotes st) (VInt (Z.max n 1)) = Ok (VFloat d) /\
       a = round_half_even d) /\
    (is_int (total_upvotes st) ->
     Z.abs (int (total_upvotes st)) < 2 ^ 52 ->
     let mean := (num (total_upvotes st) / inject_Z (Z.max n 1))%Q in
     a = round_half_even mean /\
     (Qabs (mean - inject_Z a) <= 1 # 2)%Q /\
     ((Qabs (mean - inject_Z a) == 1 # 2)%Q -> Z.even a = true)) /\
    (n = 0 -> (num (total_upvotes st) == 0)%Q -> a = 0).
Proof.
  intro H.
  destruct (avg_score_ok _ _ _ H) as (n & d & Hn & Nu & Hd & Ha).
  exists n, (round_half_even d).
  split; [exact Hn|]. split; [exact Ha|]. split; [exact Nu|].
  split; [exists d; split; [exact Hd | reflexivity]|].
  split.
  - intros Hi Hb.
    destruct (avg_score_exact _ _ _ H Hi Hb) as (n' & d' & Hn' & Hd' & _ & Hr).
    rewrite Hn in Hn'. injection Hn' as <-.
    rewrite Hd in Hd'. injection Hd' as <-.
    cbv zeta. rewrite Hr.
    split; [reflexivity|].
    split; [apply round_half_even_nearest | apply round_half_even_tie].
  - intros _ Hz. exact (average_of_zero _ _ _ Hz Hd).
Qed.

Lemma avg_score_is_rounded_quotient_witness :
  fetch_subreddit_stats demo "clawdbot" = Some demo_stats /\
  avg_score demo_stats = VInt 15 /\
  15 = round_half_even (num (total_upvotes demo_stats) / inject_Z (Z.max 2 1)).
Proof.
  split; [vm_compute; reflexivity|]. split; [reflexivity|].
  destruct (avg_score_is_rounded_quotient demo "clawdbot" demo_stats eq_refl)
    as (n & a & Hn & Ha & _ & _ & Hexact & _).
  injection Hn as <-. injection Ha as <-.
  apply Hexact; [discriminate | vm_compute; reflexivity].
Defined.

(** [round] breaks a tie towards the even integer: scores 2 and 3 average
    to 2, scores 3 and 4 to 4. *)
Example round_ties_to_even :
  py_round (VFloat (5 # 2)) = Ok (VInt 2) /\
  py_round (VFloat (7 # 2)) = Ok (VInt 4).
Proof. split; reflexivity. Qed.



(** C4, as stated, fails: the running maximum starts at 0, so a community
    whose only qualifying post is scored -5 reports [top_score = 0], which
    is not the score of any qualifying post. *)
Lemma top_score_not_maximum_when_negative :
  fetch_subreddit_stats downvoted "clawdbot" =
    Some {| name := "r/clawdbot"; key := "clawdbot";
            subscribers := VInt 600; active := VInt 0;
            posts_24h := VInt 1; comments := VInt 0; avg_score := VInt (-5);
            total_upvotes := VInt (-5); top_score := VInt 0 |} /\
  map score (qualifying downvoted "clawdbot") = [VInt (-5)] /\
  ~ maximum_of (VInt 0) (map score (qualifying downvoted "clawdbot")).
Proof.
  split; [vm_compute; reflexivity|].
  split; [vm_compute; reflexivity|].
  intros (Hex & _).
  change (map score (qualifying downvoted "clawdbot")) with [VInt (-5)] in Hex.
  inversion Hex as [v l Hv | v l Hv]; subst.
  - vm_compute in Hv. discriminate.
  - inversion Hv.
Qed.

(** C4, amended.  [top_score] is the greatest of 0 and the scores of the
    qualifying posts: it is a number, at least 0 and at least every
    qualifying score, and it is either the initial 0 or the score of a
    qualifying post.  So it is the maximum single-post score as soon as
    some qualifying post has a score of 0 or more, and it is 0 when no
    post qualifies. *)
Theorem top_score_is_max_with_zero (w : world) (sub : string) (st : stats) :
  fetch_subreddit_stats w sub = Some st ->
  let scores := map score (qualifying w sub) in
  is_number (top_score st) /\
  (0 <= num (top_score st))%Q /\
  Forall (fun v => (num v <= num (top_score st))%Q) scores /\
  (top_score st = VInt 0 \/ In (top_score st) scores) /\
  (Exists (fun v => (0 <= num v)%Q) scores ->
   maximum_of (top_score st) scores) /\
  (scores = [] -> top_score st = VInt 0).
Proof.
  intros H scores.
  apply fetch_subreddit_stats_ok in H.
  destruct H as (j & about & c & m & quot & _ & _ & Es & _ & _ & _ & _ & _
                 & _ & _ & _ & _ & _ & Et).
  apply scan_loop in Es. destruct Es as [_ _ _ St].
  destruct St as (Nt & Lt0 & Fa & Ri); [discriminate|].
  rewrite Et. change (num (c_top_score counters0)) with 0%Q in Lt0.
  assert (Fa' : Forall (fun v => (num v <= num (c_top_score c))%Q) scores).
  { unfold scores, qualifying, within_24h. apply Forall_map. exact Fa. }
  assert (Ri' : c_top_score c = VInt 0 \/ In (c_top_score c) scores).
  { destruct Ri as [Ri | (p & Hp & Sp)]; [left; exact Ri | right].
    rewrite <- Sp. unfold scores, qualifying, within_24h.
    apply in_map. exact Hp. }
  repeat split; auto.
  - destruct Ri' as [R0 | Rin].
    + apply Exists_exists in H. destruct H as (v & Hin & Hv).
      apply Exists_exists. exists v. split; [exact Hin|].
      rewrite Forall_forall in Fa'. specialize (Fa' _ Hin).
      rewrite R0 in *. change (num (VInt 0)) with 0%Q in *. lra.
    + apply Exists_exists. exists (c_top_score c). split; [exact Rin|].
      reflexivity.
  - intro Hnil. destruct Ri' as [R0 | Rin]; [exact R0|].
    rewrite Hnil in Rin. destruct Rin.
Qed.

Lemma top_score_is_max_with_zero_witness :
  fetch_subreddit_stats demo "clawdbot" = Some demo_stats /\
  map score (qualifying demo "clawdbot") = [VInt 10; VInt 20] /\
  maximum_of (top_score demo_stats) (map score (qualifying demo "clawdbot")).
Proof.
  split; [reflexivity|]. split; [vm_compute; reflexivity|].
  apply (top_score_is_max_with_zero demo "clawdbot" demo_stats eq_refl).
  apply Exists_cons_hd. vm_compute. discriminate.
Defined.

(** C9.  When the metadata call of a community succeeds (status 200 with a
    JSON body whose ['data'] is an object) and the hot-posts call answers
    with a status other than 200, the fetch returns a populated result:
    the four 24h counters and the average are 0, and the subscriber and
    active counts are those of the metadata. *)
Theorem hot_failure_is_zero_posts (w : world) (sub : string) (j : value)
  (about : list (string * value)) (status : Z) (body : option value) :
  http_get w (about_url sub) = Response 200 (Some j) ->
  py_get j "data" (VDict []) = Ok (VDict about) ->
  http_get w (hot_url sub) = Response status body ->
  status <> 200 ->
  fetch_subreddit_stats w sub =
    Some {| name := ("r/" ++ sub)%string;
            key := sub;
            subscribers := dict_get about "subscribers" (VInt 0);
            active := py_or (dict_get about "accounts_active" (VInt 0)) (VInt 0);
            posts_24h := VInt 0;
            comments := VInt 0;
            avg_score := VInt 0;
            total_upvotes := VInt 0;
            top_score := VInt 0 |}.
Proof.
  intros Ha Hd Hh Hs.
  unfold fetch_subreddit_stats, fetch_subreddit_stats_try.
  rewrite Ha. cbn [Z.eqb Pos.eqb negb json bind]. rewrite Hd. cbn [bind].
  rewrite Hh. unfold hot_posts.
  apply Z.eqb_neq in Hs. rewrite Hs. reflexivity.
Qed.

Lemma hot_failure_is_zero_posts_witness :
  fetch_subreddit_stats hot_refused "clawdbot" =
    Some {| name := "r/clawdbot"; key := "clawdbot";
            subscribers := VInt 600; active := VInt 12;
            posts_24h := VInt 0; comments := VInt 0; avg_score := VInt 0;
            total_upvotes := VInt 0; top_score := VInt 0 |}.
Proof.
  apply (hot_failure_is_zero_posts hot_refused "clawdbot"
           (about_doc [("subscribers", VInt 600); ("accounts_active", VInt 12)])
           [("subscribers", VInt 600); ("accounts_active", VInt 12)]
           429 None).
  - reflexivity.
  - reflexivity.
  - reflexivity.
  - discriminate.
Defined.

(** C10.  The code departs from the claim: only the active count has the
    [or 0] guard.  A subscriber count that is present but [null] is put
    in the result as it is, so the result holds a field that is not a
    number (its active count is still never [null]), and the run that
    collects this community never returns a snapshot: adding the field
    to the running total raises, before any file is written. *)
Theorem null_subscribers_abort_run (w : world) (fs : files) (sub : string)
  (st : stats) :
  In sub SUBREDDITS ->
  fetch_subreddit_stats w sub = Some st ->
  lookup "subscribers" (metadata w sub) = Some VNone ->
  subscribers st = VNone /\ ~ is_number (subscribers st) /\
  active st <> VNone /\
  exists e, collect_all_stats w fs = (fs, Raise e).
Proof.
  intros Hin Hf Hl.
  pose proof (fetch_subreddit_stats_ok _ _ _ Hf) as H.
  destruct H as (j & d & c & m & quot & Eh & Ed & _ & _ & _ & _ & _ & _
                 & Esub & Eact & _).
  assert (Hs : subscribers st = VNone).
  { unfold metadata in Hl. rewrite Eh, Ed in Hl.
    rewrite Esub. unfold dict_get. rewrite Hl. reflexivity. }
  split; [exact Hs|]. split; [rewrite Hs; intro N; apply N; reflexivity|].
  split; [rewrite Eact; apply py_or_zero|].
  unfold collect_all_stats.
  destruct (build_data w fs) as [[[data t] gh]|e] eqn:Eb;
    [exfalso | exists e; reflexivity].
  apply build_data_ok in Eb.
  destruct Eb as (prev & pr & pg & n & ds & dst & df & _ & _ & _ & Hloop & _).
  assert (Hstep : forall t0 t' sub0 st0,
    collect_sub w t0 sub0 = Ok t' ->
    fetch_subreddit_stats w sub0 = Some st0 ->
    py_add (Totals.total_subs t0) (subscribers st0) =
      Ok (Totals.total_subs t')).
  { intros t0 t' sub0 st0 Hc F. apply collect_sub_ok in Hc.
    rewrite F in Hc. tauto. }
  destruct (collect_loop_total w Totals.total_subs subscribers Hstep
              _ _ _ Hloop) as (_ & Fn & _); [discriminate|].
  rewrite Forall_forall in Fn.
  apply (Fn VNone); [|reflexivity].
  rewrite <- Hs. apply in_map. apply available_complete with (sub := sub);
    assumption.
Qed.

Lemma null_subscribers_abort_run_witness :
  fetch_subreddit_stats null_subscribers "clawdbot" =
    Some {| name := "r/clawdbot"; key := "clawdbot";
            subscribers := VNone; active := VInt 0;
            posts_24h := VInt 0; comments := VInt 0; avg_score := VInt 0;
            total_upvotes := VInt 0; top_score := VInt 0 |} /\
  collect_all_stats null_subscribers first_run =
    (first_run, Raise TypeError) /\
  exists e, collect_all_stats null_subscribers first_run =
            (first_run, Raise e).
Proof.
  split; [vm_compute; reflexivity|].
  split; [vm_compute; reflexivity|].
  apply (null_subscribers_abort_run null_subscribers first_run "clawdbot"
           {| name := "r/clawdbot"; key := "clawdbot";
              subscribers := VNone; active := VInt 0;
              posts_24h := VInt 0; comments := VInt 0; avg_score := VInt 0;
              total_upvotes := VInt 0; top_score := VInt 0 |}).
  - left. reflexivity.
  - vm_compute; reflexivity.
  - vm_compute; reflexivity.
Defined.

(** * The aggregator *)





(** C1, as stated, fails: a first run records 50 stars and 7 forks; in
    the next run the repository is unavailable, and the new snapshot has
    the three counters at 0 but [stars_delta = -50] and
    [forks_delta = -7]. *)
Lemma repo_unavailable_deltas_not_zero :
  fetch_github_stats repo_down = None /\
  exists fs1 d1 fs2 d2,
    collect_all_stats demo first_run = (fs1, Ok d1) /\
    Github.stars (github d1) = VInt 50 /\
    Github.forks (github d1) = VInt 7 /\
    collect_all_stats repo_down fs1 = (fs2, Ok d2) /\
    github d2 =
      {| Github.stars := VInt 0; Github.stars_delta := VInt (-50);
         Github.forks := VInt 0; Github.forks_delta := VInt (-7);
         Github.open_issues := VInt 0 |} /\
    Github.stars_delta (github d2) <> VInt 0 /\
    Github.forks_delta (github d2) <> VInt 0.
Proof.
  split; [vm_compute; reflexivity|].
  set (run1 := collect_all_stats demo first_run).
  set (run2 := collect_all_stats repo_down (fst run1)).
  assert (R1 : exists d1, snd run1 = Ok d1 /\
                 Github.stars (github d1) = VInt 50 /\
                 Github.forks (github d1) = VInt 7).
  { vm_compute. eexists. repeat split; reflexivity. }
  assert (R2 : exists d2, snd run2 = Ok d2 /\
                 github d2 =
                   {| Github.stars := VInt 0; Github.stars_delta := VInt (-50);
                      Github.forks := VInt 0; Github.forks_delta := VInt (-7);
                      Github.open_issues := VInt 0 |}).
  { vm_compute. eexists. split; reflexivity. }
  destruct R1 as (d1 & R1 & Hs & Hf). destruct R2 as (d2 & R2 & Hg).
  exists (fst run1), d1, (fst run2), d2.
  split; [rewrite <- R1; apply surjective_pairing|].
  split; [exact Hs|]. split; [exact Hf|].
  split; [rewrite <- R2; apply surjective_pairing|].
  split; [exact Hg|]. rewrite Hg. simpl. split; discriminate.
Qed.

(** A delta against the zero that stands in for a missing repository. *)
Lemma delta_from_zero (d : value) (ps : list (string * value)) (field : string) :
  delta (VInt 0) (VDict ps) field = Ok d ->
  (lookup field ps = None -> d = VInt 0) /\
  (forall p, lookup field ps = Some p ->
     is_number p /\ (num d == - num p)%Q /\
     (forall s, p = VInt s -> d = VInt (- s))).
Proof.
  intro H. apply delta_ok in H. destruct H as (_ & _ & Hm). split.
  - intro L. rewrite L in Hm. apply Hm. discriminate.
  - intros p L. rewrite L in Hm. destruct Hm as (Np & Qd & Id).
    repeat split; auto.
    + rewrite Qd. change (num (VInt 0)) with 0%Q. ring.
    + intros s ->. apply (Id 0 s); reflexivity.
Qed.

(** C1, amended.  When the repository fetch returns the unavailable result
    the new snapshot has [stars = forks = open_issues = 0]; each of
    [stars_delta] and [forks_delta] is 0 when the previous snapshot has no
    value for it (so both are 0 when there is no previous snapshot), and
    is 0 minus the previous value when it has one. *)
Theorem repo_unavailable_zeroes (w : world) (fs fs' : files)
  (data : snapshot) :
  fetch_github_stats w = None ->
  collect_all_stats w fs = (fs', Ok data) ->
  let g := github data in
  Github.stars g = VInt 0 /\ Github.forks g = VInt 0 /\
  Github.open_issues g = VInt 0 /\
  (previous fs "github" "stars" = None -> Github.stars_delta g = VInt 0) /\
  (previous fs "github" "forks" = None -> Github.forks_delta g = VInt 0) /\
  (forall p, previous fs "github" "stars" = Some p ->
     is_number p /\ (num (Github.stars_delta g) == - num p)%Q /\
     (forall s, p = VInt s -> Github.stars_delta g = VInt (- s))) /\
  (forall p, previous fs "github" "forks" = Some p ->
     is_number p /\ (num (Github.forks_delta g) == - num p)%Q /\
     (forall s, p = VInt s -> Github.forks_delta g = VInt (- s))) /\
  ((forall v, DATA_FILE fs <> Parsed v) ->
     Github.stars_delta g = VInt 0 /\ Github.forks_delta g = VInt 0).
Proof.
  intros Hg H g.
  apply collect_all_stats_ok in H. destruct H as (t & gh & h & Hb & _ & _).
  apply build_data_ok in Hb.
  destruct Hb as (prev & pr & pg & n & ds & dst & df & Hp & _ & Hpg & _ & Hgh
                  & _ & _ & Hst & Hfk & Hd).
  unfold github_or_zero in Hgh. rewrite Hg in Hgh. subst gh.
  simpl in Hst, Hfk.
  unfold g. rewrite Hd. simpl.
  rewrite (previous_ok _ _ _ _ "stars" Hp Hpg).
  rewrite (previous_ok _ _ _ _ "forks" Hp Hpg).
  apply delta_from_zero in Hst. destruct Hst as (Hs0 & Hs1).
  apply delta_from_zero in Hfk. destruct Hfk as (Hf0 & Hf1).
  split; [reflexivity|]. split; [reflexivity|]. split; [reflexivity|].
  split; [exact Hs0|]. split; [exact Hf0|].
  split; [exact Hs1|]. split; [exact Hf1|].
  intro Hno. split.
  - apply Hs0. rewrite <- (previous_ok _ _ _ "github" "stars" Hp Hpg).
    apply no_previous_data. exact Hno.
  - apply Hf0. rewrite <- (previous_ok _ _ _ "github" "forks" Hp Hpg).
    apply no_previous_data. exact Hno.
Qed.

Lemma repo_unavailable_zeroes_witness :
  fetch_github_stats repo_down = None /\
  exists fs' data,
    collect_all_stats repo_down first_run = (fs', Ok data) /\
    Github.stars (github data) = VInt 0 /\
    Github.stars_delta (github data) = VInt 0 /\
    Github.forks_delta (github data) = VInt 0.
Proof.
  split; [vm_compute; reflexivity|].
  destruct (collect_all_stats repo_down first_run) as [fs' [data|e]] eqn:E;
    [|vm_compute in E; discriminate].
  exists fs', data. split; [reflexivity|].
  pose proof (repo_unavailable_zeroes repo_down first_run fs' data eq_refl E)
    as (Hs & _ & _ & _ & _ & _ & _ & Hno).
  split; [exact Hs|]. apply Hno. intros v Hv. discriminate Hv.
Defined.

(** * The history *)

(** C2, as stated, fails: once the history holds 1000 entries every run
    finds 1000 entries, so two consecutive runs both report
    [data_points = 1001] and the counter does not increase. *)
Lemma data_points_stalls_at_bound :
  List.length full_history = 1000%nat /\
  exists fs1 d1 fs2 d2,
    collect_all_stats demo full_run = (fs1, Ok d1) /\
    collect_all_stats demo fs1 = (fs2, Ok d2) /\
    data_points d1 = 1001 /\ data_points d2 = 1001 /\
    ~ data_points d1 < data_points d2.
Proof.
  split; [reflexivity|].
  set (run1 := collect_all_stats demo full_run).
  set (run2 := collect_all_stats demo (fst run1)).
  assert (P1 : points (snd run1) = Some 1001) by (vm_compute; reflexivity).
  assert (P2 : points (snd run2) = Some 1001) by (vm_compute; reflexivity).
  destruct (snd run1) as [d1|] eqn:R1; [|discriminate P1].
  destruct (snd run2) as [d2|] eqn:R2; [|discriminate P2].
  simpl in P1, P2. inv_ok P1. inv_ok P2.
  exists (fst run1), d1, (fst run2), d2.
  split; [rewrite <- R1; apply surjective_pairing|].
  split; [rewrite <- R2; apply surjective_pairing|].
  rewrite P1, P2. repeat split; lia.
Qed.

(** C2, amended.  [data_points] is the length of the persisted history at
    the start of the run plus 1.  Over two consecutive runs the second
    value is [min(n + 1, 1000) + 1] for a first history of length [n]: it
    is greater than the first while the history had fewer than 1000
    entries, equal to it (1001) when the history had exactly 1000, and
    never above 1001. *)
Theorem data_points_counts_history (w1 w2 : world) (fs fs1 fs2 : files)
  (d1 d2 : snapshot) :
  collect_all_stats w1 fs = (fs1, Ok d1) ->
  collect_all_stats w2 fs1 = (fs2, Ok d2) ->
  exists h, load_history fs = VList h /\
    let n := Z.of_nat (List.length h) in
    data_points d1 = n + 1 /\
    data_points d2 = Z.min (n + 1) 1000 + 1 /\
    (n < 1000 -> data_points d1 < data_points d2) /\
    (n = 1000 -> data_points d2 = data_points d1) /\
    data_points d2 <= 1001.
Proof.
  intros H1 H2.
  apply run_data_points in H1. destruct H1 as (h & Hh & Hp1 & e & Hh1).
  apply run_data_points in H2. destruct H2 as (h1 & Hh1' & Hp2 & _).
  rewrite Hh1 in Hh1'. inv_ok Hh1'.
  exists h. split; [exact Hh|]. cbv zeta.
  rewrite Hp1, Hp2, keep_last_1000_length, length_app.
  change (List.length [e]) with 1%nat.
  repeat split; lia.
Qed.

Lemma data_points_counts_history_witness :
  exists fs1 d1 fs2 d2,
    collect_all_stats demo first_run = (fs1, Ok d1) /\
    collect_all_stats demo fs1 = (fs2, Ok d2) /\
    data_points d1 = 1 /\ data_points d2 = 2.
Proof.
  destruct (collect_all_stats demo first_run) as [fs1 [d1|e]] eqn:E1;
    [|vm_compute in E1; discriminate].
  assert (Hfs1 : fs1 = fst (collect_all_stats demo first_run))
    by (rewrite E1; reflexivity).
  destruct (collect_all_stats demo fs1) as [fs2 [d2|e]] eqn:E2;
    [|rewrite Hfs1 in E2; vm_compute in E2; discriminate].
  exists fs1, d1, fs2, d2. split; [reflexivity|]. split; [exact E2|].
  destruct (data_points_counts_history demo demo first_run fs1 fs2 d1 d2 E1 E2)
    as (h & Hh & Hp1 & Hp2 & _).
  vm_compute in Hh. inv_ok Hh. split; [exact Hp1 | exact Hp2].
Defined.

(** C8.  After a run the persisted history is the last 1000 entries of the
    old history followed by the new entry: it never has more than 1000
    entries; appending to a history of exactly 1000 entries drops the
    oldest one and keeps the other 999 in order with the new entry last;
    a shorter history just gains the new entry. *)
Theorem history_keeps_last_1000 (w : world) (fs fs' : files)
  (data : snapshot) :
  collect_all_stats w fs = (fs', Ok data) ->
  exists h e h',
    load_history fs = VList h /\
    (exists t, build_data w fs = Ok (data, t, github_or_zero w) /\
               e = history_entry w t (github_or_zero w)) /\
    HISTORY_FILE fs' = Parsed (VList h') /\
    (List.length h' <= 1000)%nat /\
    List.length h' = Nat.min (List.length h + 1) 1000 /\
    (exists dropped, (h ++ [e] = dropped ++ h')%list) /\
    (List.length h = 1000%nat -> h' = (tl h ++ [e])%list) /\
    ((List.length h < 1000)%nat -> h' = (h ++ [e])%list).
Proof.
  intro H. apply collect_all_stats_ok in H.
  destruct H as (t & gh & h & Hb & Hh & ->).
  pose proof (build_data_ok _ _ _ _ _ Hb) as Hgh.
  destruct Hgh as (prev & pr & pg & n & ds & dst & df & _ & _ & _ & _ & Hgh
                   & _).
  subst gh.
  exists h, (history_entry w t (github_or_zero w)),
    (keep_last_1000 (h ++ [history_entry w t (github_or_zero w)])).
  split; [exact Hh|]. split; [exists t; auto|]. split; [reflexivity|].
  pose proof (keep_last_1000_length
                (h ++ [history_entry w t (github_or_zero w)])) as Hlen.
  rewrite length_app in Hlen.
  change (List.length [history_entry w t (github_or_zero w)]) with 1%nat in Hlen.
  split; [lia|]. split; [exact Hlen|]. split; [|split].
  - eexists. apply keep_last_1000_suffix.
  - apply keep_last_1000_full.
  - intro Hlt. apply keep_last_1000_short. rewrite length_app.
    change (List.length [history_entry w t (github_or_zero w)]) with 1%nat.
    lia.
Qed.

Lemma history_keeps_last_1000_witness :
  List.length full_history = 1000%nat /\
  exists fs' data e,
    collect_all_stats demo full_run = (fs', Ok data) /\
    HISTORY_FILE fs' = Parsed (VList (tl full_history ++ [e])).
Proof.
  split; [reflexivity|].
  destruct (collect_all_stats demo full_run) as [fs' [data|x]] eqn:E;
    [|vm_compute in E; discriminate].
  destruct (history_keeps_last_1000 demo full_run fs' data E)
    as (h & e & h' & Hh & _ & Hf & _ & _ & _ & Hfull & _).
  exists fs', data, e. split; [reflexivity|].
  change (load_history full_run) with (VList full_history) in Hh.
  injection Hh as <-. rewrite Hf, (Hfull eq_refl). reflexivity.
Defined.

(** * Further facts about the fetchers *)

Lemma numeric_is_number (v : value) : numeric v = true <-> is_number v.
Proof.
  unfold numeric, is_number. destruct (num_of v); split; intro H;
    try reflexivity; try discriminate; congruence.
Qed.

Lemma integral_is_int (v : value) : integral v = true <-> is_int v.
Proof.
  unfold integral, is_int. destruct (int_of v); split; intro H;
    try reflexivity; try discriminate; congruence.
Qed.

Lemma is_int_is_number (v : value) : is_int v -> is_number v.
Proof.
  unfold is_int, is_number. destruct (int_of v) as [z|] eqn:E; [|congruence].
  rewrite (int_of_num_of _ _ E). discriminate.
Qed.

(** Integer arithmetic never raises. *)
Lemma py_arith_int (fz : Z -> Z -> Z) (fq : Q -> Q -> Q) (a b : value) :
  is_int a -> is_int b -> py_arith fz fq a b = Ok (VInt (fz (int a) (int b))).
Proof.
  unfold is_int, int, py_arith. intros Ha Hb.
  destruct (int_of a); [|congruence]. destruct (int_of b); [|congruence].
  reflexivity.
Qed.

Lemma py_gt_total (a b : value) :
  is_number a -> is_number b ->
  py_gt a b = Ok (negb (Qle_bool (num a) (num b))).
Proof.
  unfold is_number, py_gt, num. intros Ha Hb.
  destruct (num_of a); [|congruence]. destruct (num_of b); [|congruence].
  reflexivity.
Qed.

Lemma py_max_total (a b : value) :
  is_number a -> is_number b -> exists r, py_max a b = Ok r.
Proof.
  intros Ha Hb. unfold py_max. rewrite (py_gt_total _ _ Hb Ha).
  eexists. reflexivity.
Qed.

Lemma scan_post_sound (cutoff : Q) (c c' : counters) (post : value) :
  scan_post cutoff c post = Ok c' -> post_ok cutoff post = true.
Proof.
  unfold scan_post, post_data, post_created. intro H.
  inv_bind H. apply py_get_dict in E. destruct E as (d & -> & ->).
  inv_bind H. apply py_get_dict in E. destruct E as (p & Hp & ->).
  rewrite Hp in H.
  inv_bind H. apply py_gt_ok in E. destruct E as (Nc & _ & ->).
  unfold post_ok. rewrite Hp.
  apply numeric_is_number in Nc. rewrite Nc. simpl.
  change (num (VFloat cutoff)) with cutoff in H.
  destruct (negb (Qle_bool _ cutoff)); [|reflexivity].
  unfold py_get in H. cbn [bind] in H.
  inv_bind H. apply py_add_ok in E. destruct E as (_ & Nn & _).
  inv_bind H. apply py_add_ok in E. destruct E as (_ & Ns & _).
  apply numeric_is_number in Nn, Ns. rewrite Nn, Ns. reflexivity.
Qed.

Lemma post_fields (cutoff : Q) (d p : list (string * value)) :
  dict_get d "data" (VDict []) = VDict p ->
  created_after cutoff (VDict d) =
    negb (Qle_bool (num (dict_get p "created_utc" (VInt 0))) cutoff) /\
  num_comments (VDict d) = dict_get p "num_comments" (VInt 0) /\
  score (VDict d) = dict_get p "score" (VInt 0).
Proof.
  intro Ed.
  unfold created_after, created_utc, num_comments, score, post_field,
    post_data, py_get.
  rewrite Ed. cbn [bind]. repeat split; reflexivity.
Qed.

(** On a well-formed post with integer counts an iteration succeeds and
    keeps the accumulators integers. *)
Lemma scan_post_complete (cutoff : Q) (c : counters) (post : value) :
  int_counters c -> post_ok cutoff post = true ->
  post_integral cutoff post = true ->
  exists c', scan_post cutoff c post = Ok c' /\ int_counters c' /\
    int (c_upvotes_24h c') =
    int (c_upvotes_24h c) +
    (if created_after cutoff post then int (score post) else 0).
Proof.
  intros (Nc & Nu & Nt) H Hi. unfold post_ok in H.
  destruct post as [| | | | | |d]; try discriminate.
  destruct (dict_get d "data" (VDict [])) as [| | | | | |p] eqn:Ed;
    try discriminate.
  destruct (post_fields cutoff _ _ Ed) as (Hca & Hnc & Hsc).
  unfold post_integral in Hi. rewrite Hca, Hnc, Hsc in *. clear Hca Hnc Hsc.
  apply andb_prop in H. destruct H as (Hc & _).
  apply numeric_is_number in Hc.
  unfold scan_post, post_data, post_created, py_get. rewrite Ed.
  cbn [bind]. rewrite (py_gt_total _ _ Hc) by discriminate.
  cbn [bind]. change (num (VFloat cutoff)) with cutoff.
  destruct (negb (Qle_bool _ cutoff)).
  - apply andb_prop in Hi. destruct Hi as (Hn & Hs).
    apply integral_is_int in Hn, Hs.
    unfold py_add.
    rewrite (py_arith_int _ _ _ _ Nc Hn), (py_arith_int _ _ _ _ Nu Hs).
    cbn [bind].
    destruct (py_max_total _ _ (is_int_is_number _ Nt) (is_int_is_number _ Hs))
      as (r3 & E3).
    rewrite E3. cbn [bind]. eexists. split; [reflexivity|].
    apply py_max_ok in E3. destruct E3 as (_ & _ & R3 & _).
    unfold int_counters. simpl.
    split; [|reflexivity].
    split; [discriminate|]. split; [discriminate|].
    destruct R3 as [-> | ->]; assumption.
  - eexists. split; [reflexivity|]. split; [repeat split; assumption | lia].
Qed.

Lemma scan_loop_sound (cutoff : Q) (posts : list value) :
  forall c c', for_each (scan_post cutoff) c posts = Ok c' ->
               forallb (post_ok cutoff) posts = true.
Proof.
  induction posts as [|post posts IH]; simpl; intros c c' H; [reflexivity|].
  inv_bind H. rewrite (scan_post_sound _ _ _ _ E). simpl. eapply IH; eauto.
Qed.

Lemma scan_loop_complete (cutoff : Q) (posts : list value) :
  forall c, int_counters c -> forallb (post_ok cutoff) posts = true ->
    forallb (post_integral cutoff) posts = true ->
    exists c', for_each (scan_post cutoff) c posts = Ok c' /\
               int_counters c' /\
               int (c_upvotes_24h c') =
               int (c_upvotes_24h c) +
               zsum (map (fun p => int (score p))
                         (filter (created_after cutoff) posts)).
Proof.
  induction posts as [|post posts IH]; simpl; intros c Nc H Hi.
  - eexists. split; [reflexivity|]. split; [exact Nc | lia].
  - apply andb_prop in H. destruct H as (Hp & Hr).
    apply andb_prop in Hi. destruct Hi as (Hip & Hir).
    destruct (scan_post_complete _ _ _ Nc Hp Hip) as (c1 & E1 & N1 & U1).
    rewrite E1. cbn [bind].
    destruct (IH c1 N1 Hr Hir) as (c' & E' & N' & U').
    exists c'. split; [exact E'|]. split; [exact N'|].
    rewrite U', U1. destruct (created_after cutoff post); simpl; lia.
Qed.

Lemma int_counters0 : int_counters counters0.
Proof. repeat split; discriminate. Qed.

(** The average of an integer total that is not beyond the binary64
    range can always be computed. *)
Lemma average_total (n : Z) (u : value) :
  is_int u -> Z.abs (int u) < 2 ^ 1023 ->
  exists a,
    (m <- py_max (VInt n) (VInt 1) ;;
     quot <- py_truediv u m ;; py_round quot) = Ok (VInt a).
Proof.
  intros Iu Hb. rewrite py_max_int. cbn [bind].
  unfold is_int in Iu. unfold int in Hb.
  destruct (int_of u) as [t|] eqn:Et; [|congruence].
  rewrite (py_truediv_int _ _ _ Et) by lia.
  unfold to_float.
  rewrite round64_finite; [cbn [bind py_round]; eexists; reflexivity|].
  assert (Hm : (1 <= inject_Z (Z.max n 1))%Q).
  { rewrite <- (Zle_Qle 1). lia. }
  assert (Ht : (Qabs (inject_Z t) < 2 ^ 1023)%Q).
  { rewrite Qabs_inject_Z. change 2%Q with (inject_Z 2).
    rewrite <- Zpower_Qpower by lia. rewrite <- Zlt_Qlt. exact Hb. }
  unfold Qdiv. rewrite Qabs_Qmult.
  assert (Hi : (0 < / inject_Z (Z.max n 1))%Q)
    by (apply Qinv_lt_0_compat; lra).
  rewrite (Qabs_pos (/ inject_Z (Z.max n 1))) by lra.
  assert (Hi1 : (/ inject_Z (Z.max n 1) <= 1)%Q).
  { apply Qle_shift_inv_r; lra. }
  pose proof (Qabs_nonneg (inject_Z t)) as Hn.
  apply Qle_lt_trans with (Qabs (inject_Z t)); [|exact Ht].
  set (A := Qabs (inject_Z t)) in *. set (I := (/ inject_Z (Z.max n 1))%Q) in *.
  nra.
Qed.

(** Integer scores keep the running total an integer. *)
Lemma scan_upvotes_int (cutoff : Q) (posts : list value) :
  forall c c', for_each (scan_post cutoff) c posts = Ok c' ->
    is_int (c_upvotes_24h c) ->
    Forall (fun p => is_int (score p)) (filter (created_after cutoff) posts) ->
    is_int (c_upvotes_24h c').
Proof.
  induction posts as [|post posts IH]; simpl; intros c c' H Ic Hf.
  - inv_ok H. exact Ic.
  - inv_bind H. apply scan_post_ok in E.
    destruct E as [(Hq & ->) | (Hq & _ & _ & Eu & _)]; rewrite Hq in Hf.
    + eapply IH; eauto.
    + inversion Hf as [|p l Hs Hl]; subst.
      apply (IH _ _ H); [|exact Hl].
      apply py_add_ok in Eu. destruct Eu as (_ & _ & _ & _ & Hint).
      unfold is_int in Ic, Hs.
      destruct (int_of (c_upvotes_24h c)) as [a|] eqn:Ea; [|congruence].
      destruct (int_of (score post)) as [b|] eqn:Eb; [|congruence].
      rewrite (Hint a b eq_refl eq_refl). discriminate.
Qed.


Lemma scan_nothing_recent (cutoff : Q) (posts : list value) :
  forall c c', for_each (scan_post cutoff) c posts = Ok c' ->
    filter (created_after cutoff) posts = [] -> c' = c.
Proof.
  induction posts as [|post posts IH]; simpl; intros c c' H Hf.
  - inv_ok H. reflexivity.
  - inv_bind H. apply scan_post_ok in E.
    destruct E as [(Hq & ->) | (Hq & _)]; rewrite Hq in Hf.
    + eapply IH; eauto.
    + discriminate.
Qed.

Lemma qsum_le_const (t : Q) (l : list Q) :
  Forall (fun x => (x <= t)%Q) l ->
  (qsum l <= inject_Z (Z.of_nat (List.length l)) * t)%Q.
Proof.
  induction 1 as [|x l Hx Hl IH].
  - cbn [qsum fold_right List.length Z.of_nat].
    change (inject_Z 0) with 0%Q. lra.
  - cbn [qsum fold_right List.length]. fold (qsum l).
    rewrite Nat2Z.inj_succ. unfold Z.succ. rewrite inject_Z_plus.
    change (inject_Z 1) with 1%Q.
    set (a := inject_Z (Z.of_nat (List.length l))) in *.
    setoid_replace ((a + 1) * t)%Q with (t + a * t)%Q by ring.
    apply Qplus_le_compat; assumption.
Qed.

Lemma qsum_nonneg (l : list Q) :
  Forall (fun x => (0 <= x)%Q) l -> (0 <= qsum l)%Q.
Proof.
  induction 1 as [|x l Hx Hl IH]; cbn [qsum fold_right]; [lra|].
  fold (qsum l). lra.
Qed.

Lemma is_int_integral (v : value) :
  is_int v -> (num v == inject_Z (int v))%Q.
Proof.
  unfold is_int, int, num. destruct (int_of v) as [z|] eqn:E; [|congruence].
  intros _. rewrite (int_of_num_of _ _ E). reflexivity.
Qed.

(** Rounding never passes an integer bound. *)
Lemma round_half_even_le (q : Q) (z : Z) :
  (q <= inject_Z z)%Q -> round_half_even q <= z.
Proof.
  intro H. pose proof (round_half_even_nearest q) as N.
  apply Qabs_Qle_condition in N. destruct N as (N1 & N2).
  assert (L : (inject_Z (round_half_even q) <= inject_Z z + (1 # 2))%Q) by lra.
  unfold Qle in L. simpl in L. lia.
Qed.

Lemma round_half_even_ge (q : Q) (z : Z) :
  (inject_Z z <= q)%Q -> z <= round_half_even q.
Proof.
  intro H. pose proof (round_half_even_nearest q) as N.
  apply Qabs_Qle_condition in N. destruct N as (N1 & N2).
  assert (L : (inject_Z z - (1 # 2) <= inject_Z (round_half_even q))%Q) by lra.
  unfold Qle in L. simpl in L. lia.
Qed.

(** The figures of a result in terms of the qualifying posts. *)
Lemma fetch_subreddit_stats_figures (w : world) (sub : string) (st : stats) :
  fetch_subreddit_stats w sub = Some st ->
  let qs := qualifying w sub in
  let n := Z.of_nat (List.length qs) in
  posts_24h st = VInt n /\
  (num (total_upvotes st) == qsum (map (fun p => num (score p)) qs))%Q /\
  (exists d,
     py_truediv (total_upvotes st) (VInt (Z.max n 1)) = Ok (VFloat d) /\
     avg_score st = VInt (round_half_even d)) /\
  (0 <= num (top_score st))%Q /\
  Forall (fun p => (num (score p) <= num (top_score st))%Q) qs /\
  (top_score st = VInt 0 \/ exists p, In p qs /\ score p = top_score st) /\
  (qs = [] ->
   comments st = VInt 0 /\ total_upvotes st = VInt 0 /\
   top_score st = VInt 0).
Proof.
  intros H qs n.
  destruct (avg_score_ok _ _ _ H) as (n' & d & Hn & _ & Hd & Ha).
  apply fetch_subreddit_stats_ok in H.
  destruct H as (j & about & c & m & quot & _ & _ & Es & _ & _ & _ & _ & _
                 & _ & _ & Ep & Ec & Eu & Et).
  pose proof (scan_nothing_recent _ _ _ _ Es) as Hnone.
  apply scan_loop in Es. destruct Es as [Sp _ Su St].
  destruct Su as (_ & Su); [discriminate|].
  destruct St as (_ & L0 & Fa & Ri); [discriminate|].
  fold (qualifying w sub) in Sp, Su, Fa, Ri, Hnone. fold qs in Sp, Su, Fa, Ri, Hnone.
  simpl in Sp. fold n in Sp.
  rewrite Ep in Hn. inv_ok Hn. rewrite Sp in Hd.
  rewrite Eu, Et.
  split; [rewrite Ep, Sp; reflexivity|].
  split; [rewrite Su; apply Qplus_0_l|].
  split; [exists d; rewrite <- Eu; split; assumption|].
  split; [exact L0|]. split; [exact Fa|]. split; [exact Ri|].
  intro Hq. rewrite Ec, (Hnone Hq). repeat split; reflexivity.
Qed.

(** Integer scores give an integer total. *)
Lemma total_upvotes_int (w : world) (sub : string) (st : stats) :
  fetch_subreddit_stats w sub = Some st ->
  Forall (fun p => is_int (score p)) (qualifying w sub) ->
  is_int (total_upvotes st).
Proof.
  intros H Hf. apply fetch_subreddit_stats_ok in H.
  destruct H as (j & about & c & m & quot & _ & _ & Es & _ & _ & _ & _ & _
                 & _ & _ & _ & _ & Eu & _).
  rewrite Eu. apply (scan_upvotes_int _ _ _ _ Es); [discriminate|].
  exact Hf.
Qed.

(** * Further facts about the aggregator *)

Lemma lookup_dict_set (k k' : string) (v : value) (d : list (string * value)) :
  lookup k (dict_set k' v d) = if String.eqb k k' then Some v else lookup k d.
Proof.
  induction d as [|[k0 v0] d IH]; simpl.
  - destruct (String.eqb k k'); reflexivity.
  - destruct (String.eqb k' k0) eqn:E0; simpl.
    + apply String.eqb_eq in E0. subst k0.
      destruct (String.eqb k k'); reflexivity.
    + destruct (String.eqb k k0) eqn:E1.
      * apply String.eqb_eq in E1. subst k0.
        rewrite String.eqb_sym, E0. reflexivity.
      * exact IH.
Qed.

Lemma append_eqb (k a b : string) :
  String.eqb (k ++ a) (k ++ b) = String.eqb a b.
Proof.
  induction k as [|c k IH]; simpl; [reflexivity|].
  rewrite Ascii.eqb_refl. exact IH.
Qed.

Lemma subreddit_items_keys (st : stats) :
  map fst (subreddit_items st) = subreddit_keys (key st).
Proof. reflexivity. Qed.

(** Adding a community sets its five items and nothing else. *)
Lemma lookup_add_subreddit (k : string) (e : list (string * value))
  (st : stats) :
  (forall v, In (k, v) (subreddit_items st) ->
             lookup k (add_subreddit e st) = Some v) /\
  (~ In k (subreddit_keys (key st)) ->
   lookup k (add_subreddit e st) = lookup k e).
Proof.
  unfold add_subreddit. cbv zeta. rewrite !lookup_dict_set. split.
  - unfold subreddit_items. simpl.
    intros v [H | [H | [H | [H | [H | []]]]]]; inv_ok H;
      rewrite !append_eqb; reflexivity.
  - unfold subreddit_keys. simpl. intro H.
    repeat match goal with
    | |- context [String.eqb k ?s] =>
        let E := fresh "E" in
        destruct (String.eqb k s) eqn:E;
        [apply String.eqb_eq in E; exfalso; apply H; rewrite E; tauto|]
    end.
    reflexivity.
Qed.

Lemma lookup_fold_other (k : string) (rs : list stats) :
  forall e,
    (forall st, In st rs -> ~ In k (subreddit_keys (key st))) ->
    lookup k (fold_left add_subreddit rs e) = lookup k e.
Proof.
  induction rs as [|a rs IH]; simpl; intros e H; [reflexivity|].
  rewrite IH by (intros; apply H; auto).
  apply lookup_add_subreddit. apply H. auto.
Qed.

(** The flattened keys of the configured communities collide neither with
    each other nor with the aggregate keys. *)
Lemma subreddit_keys_disjoint (k k' : string) :
  In k SUBREDDITS -> In k' SUBREDDITS -> k <> k' ->
  forall s, In s (subreddit_keys k) -> ~ In s (subreddit_keys k').
Proof.
  unfold SUBREDDITS. simpl.
  intros Hk Hk' Hne s Hs Hs'.
  repeat match goal with
  | H : _ \/ _ |- _ => destruct H
  | H : False |- _ => destruct H
  end; subst; try discriminate; congruence.
Qed.

Lemma aggregate_keys_free (k sub : string) :
  In k aggregate_keys -> In sub SUBREDDITS -> ~ In k (subreddit_keys sub).
Proof.
  unfold SUBREDDITS, aggregate_keys. simpl.
  intros Hk Hs Hin.
  repeat match goal with
  | H : _ \/ _ |- _ => destruct H
  | H : False |- _ => destruct H
  end; subst; discriminate.
Qed.

Lemma keep_last_1000_app (h : list value) (e : value) :
  keep_last_1000 (h ++ [e]) =
  (skipn (List.length h - 999) h ++ [e])%list.
Proof.
  unfold keep_last_1000. rewrite length_app.
  change (List.length [e]) with 1%nat.
  destruct (1000 <? List.length h + 1)%nat eqn:C.
  - apply Nat.ltb_lt in C. rewrite skipn_app.
    replace (List.length h + 1 - 1000)%nat with (List.length h - 999)%nat
      by lia.
    replace (List.length h - 999 - List.length h)%nat with 0%nat by lia.
    reflexivity.
  - apply Nat.ltb_ge in C.
    replace (List.length h - 999)%nat with 0%nat by lia. reflexivity.
Qed.

Lemma SUBREDDITS_NoDup : NoDup SUBREDDITS.
Proof.
  unfold SUBREDDITS.
  repeat constructor; simpl; intro H;
    repeat match goal with
    | H : _ \/ _ |- _ => destruct H
    | H : False |- _ => destruct H
    end; discriminate.
Qed.

Lemma available_keys (w : world) (subs : list string) :
  map key (available w subs) = filter (succeeded w) subs.
Proof.
  induction subs as [|sub subs IH]; simpl; [reflexivity|].
  unfold succeeded at 1.
  destruct (fetch_subreddit_stats w sub) as [st|] eqn:F; [|exact IH].
  simpl. rewrite IH. f_equal.
  apply fetch_subreddit_stats_ok in F.
  destruct F as (j & about & c & m & quot & _ & _ & _ & _ & _ & _ & _ & Hk
                 & _).
  exact Hk.
Qed.

(** The entry a successful run appends. *)
Lemma run_last_entry (w : world) (fs fs' : files) (data : snapshot) :
  collect_all_stats w fs = (fs', Ok data) ->
  exists t,
    build_data w fs = Ok (data, t, github_or_zero w) /\
    Totals.subreddit_stats t = available w SUBREDDITS /\
    VDict (last_entry fs') = history_entry w t (github_or_zero w).
Proof.
  intro H. apply collect_all_stats_ok in H.
  destruct H as (t & gh & h & Hb & Hh & ->).
  pose proof (build_data_ok _ _ _ _ _ Hb) as Hd.
  destruct Hd as (prev & pr & pg & n & ds & dst & df & _ & _ & _ & Hl & Hgh
                  & _).
  subst gh. exists t. split; [exact Hb|]. split.
  - rewrite (collect_loop_stats _ _ _ _ Hl). reflexivity.
  - unfold last_entry. cbn [HISTORY_FILE].
    rewrite keep_last_1000_app, last_last. reflexivity.
Qed.

(** Reading a key of an entry that no configured community writes. *)
Lemma lookup_history_entry_aggregate (w : world) (t : Totals.t) (gh : repo)
  (k : string) (e : list (string * value)) :
  history_entry w t gh = VDict e ->
  Forall (fun st => In (key st) SUBREDDITS) (Totals.subreddit_stats t) ->
  In k aggregate_keys ->
  lookup k e =
  lookup k [("timestamp", VStr (timestamp_iso w));
            ("time_local", VStr (time_local w));
            ("reddit_total", Totals.total_subs t);
            ("reddit_active", Totals.total_active t);
            ("reddit_posts", Totals.total_posts t);
            ("reddit_comments", Totals.total_comments t);
            ("reddit_upvotes", Totals.total_upvotes t);
            ("github_stars", stars gh);
            ("github_forks", forks gh);
            ("github_issues", open_issues gh)].
Proof.
  unfold history_entry. cbv zeta. intros He Hkeys Hk. inv_ok He.
  rewrite !lookup_dict_set, lookup_fold_other.
  - unfold aggregate_keys in Hk. simpl in Hk.
    repeat match goal with
    | H : _ \/ _ |- _ => destruct H
    | H : False |- _ => destruct H
    end; subst; reflexivity.
  - intros st Hin. rewrite Forall_forall in Hkeys.
    apply aggregate_keys_free; auto.
Qed.

Lemma available_configured (w : world) (subs : list string) :
  Forall (fun st => In (key st) subs) (available w subs).
Proof.
  apply Forall_forall. intros st H. apply available_In in H. tauto.
Qed.

Lemma lookup_fold_own (rs : list stats) :
  forall e st k v,
    NoDup (map key rs) ->
    Forall (fun st => In (key st) SUBREDDITS) rs ->
    In st rs -> In (k, v) (subreddit_items st) ->
    lookup k (fold_left add_subreddit rs e) = Some v.
Proof.
  induction rs as [|a rs IH]; intros e st k v Hnd Hcfg Hin Hkv;
    [destruct Hin|].
  cbn [map fold_left] in *.
  inversion Hnd as [|x l Hnotin Hnd']; subst.
  inversion Hcfg as [|x l Ha Hcfg']; subst.
  destruct Hin as [-> | Hin].
  - rewrite lookup_fold_other.
    + apply lookup_add_subreddit. exact Hkv.
    + intros st' Hin'. rewrite Forall_forall in Hcfg'.
      apply (subreddit_keys_disjoint (key st) (key st')).
      * exact Ha.
      * apply Hcfg'. exact Hin'.
      * intro E. apply Hnotin. rewrite E. apply in_map. exact Hin'.
      * rewrite <- subreddit_items_keys.
        apply (in_map fst) in Hkv. exact Hkv.
  - apply IH with (st := st); assumption.
Qed.



Lemma collect_sub_all (w : world) (t0 t' : Totals.t) (sub : string)
  (st : stats) :
  collect_sub w t0 sub = Ok t' ->
  fetch_subreddit_stats w sub = Some st ->
  py_add (Totals.total_subs t0) (subscribers st) = Ok (Totals.total_subs t') /\
  py_add (Totals.total_active t0) (active st) = Ok (Totals.total_active t') /\
  py_add (Totals.total_posts t0) (posts_24h st) = Ok (Totals.total_posts t') /\
  py_add (Totals.total_comments t0) (comments st) = Ok (Totals.total_comments t') /\
  py_add (Totals.total_upvotes t0) (total_upvotes st) = Ok (Totals.total_upvotes t').
Proof.
  intros Hc Hf. apply collect_sub_ok in Hc. rewrite Hf in Hc. tauto.
Qed.





(** * Further properties of the fetchers *)

(** X1.  With a good metadata response and a hot listing that is a list,
    [fetch_subreddit_stats] returns a result only if every post of the
    listing is well formed: an object whose ['data'] is an object with a
    numeric [created_utc] (0 when missing) and, for a post within the
    window, a numeric [num_comments] and [score]; the score of an older
    post is never looked at.  It does return a result when the posts are
    well formed, those of the window carry integer counts, and the sum
    of their scores is below 2^1023 in magnitude. *)
Theorem fetch_available_posts_well_formed (w : world) (sub : string)
  (j : value) (about : list (string * value)) (posts : list value) :
  http_get w (about_url sub) = Response 200 (Some j) ->
  py_get j "data" (VDict []) = Ok (VDict about) ->
  hot_posts (http_get w (hot_url sub)) = Ok (VList posts) ->
  let cutoff := (utc_timestamp w sub - 86400)%Q in
  ((exists st, fetch_subreddit_stats w sub = Some st) ->
   forallb (post_ok cutoff) posts = true) /\
  (forallb (post_ok cutoff) posts = true ->
   forallb (post_integral cutoff) posts = true ->
   Z.abs (zsum (map (fun p => int (score p))
                    (filter (created_after cutoff) posts))) < 2 ^ 1023 ->
   exists st, fetch_subreddit_stats w sub = Some st).
Proof.
  intros Ha Hd Hh cutoff. split.
  - intros (st & H). apply fetch_subreddit_stats_ok in H.
    destruct H as (j' & about' & c & m & quot & _ & _ & Es & _).
    unfold hot_listing in Es. rewrite Hh in Es. simpl in Es.
    eapply scan_loop_sound. exact Es.
  - intros Hp Hi Hb.
    destruct (scan_loop_complete _ _ _ int_counters0 Hp Hi)
      as (c & Ec & (_ & Nu & _) & Hu).
    change (int (c_upvotes_24h counters0)) with 0 in Hu.
    rewrite Z.add_0_l in Hu. fold cutoff in Hu. rewrite <- Hu in Hb.
    destruct (average_total (c_posts_24h c) _ Nu Hb) as (a & Eavg).
    unfold fetch_subreddit_stats, fetch_subreddit_stats_try.
    rewrite Ha. cbn [Z.eqb Pos.eqb negb json bind]. rewrite Hd. cbn [bind].
    rewrite Hh. cbn [bind py_iter]. unfold scan_posts. fold cutoff.
    rewrite Ec. cbn [bind py_get].
    destruct (py_max (VInt (c_posts_24h c)) (VInt 1)) as [m|]; [|discriminate].
    cbn [bind] in Eavg |- *.
    destruct (py_truediv (c_upvotes_24h c) m) as [quot|]; [|discriminate].
    cbn [bind] in Eavg |- *. rewrite Eavg. cbn [bind except_none].
    eexists. reflexivity.
Qed.

Lemma fetch_available_posts_well_formed_witness :
  forallb (post_ok (utc_timestamp demo "clawdbot" - 86400)) demo_posts = true /\
  exists st, fetch_subreddit_stats demo "clawdbot" = Some st.
Proof.
  split; [vm_compute; reflexivity|].
  apply (fetch_available_posts_well_formed demo "clawdbot"
           (about_doc [("subscribers", VInt 600); ("accounts_active", VNone)])
           [("subscribers", VInt 600); ("accounts_active", VNone)]
           demo_posts eq_refl eq_refl eq_refl).
  - vm_compute; reflexivity.
  - vm_compute; reflexivity.
  - vm_compute; reflexivity.
Defined.

(** X2.  Unlike a refused hot listing, a hot-posts call that raises, or
    that answers 200 with a body that is not JSON, makes the community
    unavailable even when its metadata call succeeded. *)
Theorem hot_transport_failure_is_unavailable (w : world) (sub : string) :
  http_get w (hot_url sub) = Failed \/
  http_get w (hot_url sub) = Response 200 None ->
  fetch_subreddit_stats w sub = None.
Proof.
  intro H. unfold fetch_subreddit_stats, fetch_subreddit_stats_try.
  destruct (http_get w (about_url sub)) as [|status body]; [reflexivity|].
  destruct (negb (status =? 200)); [reflexivity|].
  destruct (json body) as [j|]; [|reflexivity]. cbn [bind].
  destruct (py_get j "data" (VDict [])) as [about|]; [|reflexivity].
  cbn [bind]. destruct H as [-> | ->]; reflexivity.
Qed.

Lemma hot_transport_failure_is_unavailable_witness :
  fetch_subreddit_stats hot_down "clawdbot" = None.
Proof.
  apply (hot_transport_failure_is_unavailable hot_down "clawdbot").
  left. reflexivity.
Defined.

(** X3.  The post count of a result lies between 0 and the number of posts
    in the hot listing, and when it is 0 the comment count, the total
    score, the top score and the average are all 0. *)
Theorem posts_24h_bounded_by_listing (w : world) (sub : string) (st : stats) :
  fetch_subreddit_stats w sub = Some st ->
  exists n,
    posts_24h st = VInt n /\
    0 <= n <= Z.of_nat (List.length (hot_listing w sub)) /\
    (n = 0 ->
     comments st = VInt 0 /\ total_upvotes st = VInt 0 /\
     top_score st = VInt 0 /\ avg_score st = VInt 0).
Proof.
  intro H. apply fetch_subreddit_stats_figures in H.
  destruct H as (Hp & _ & (d & Hd & Ha) & _ & _ & _ & Hz).
  exists (Z.of_nat (List.length (qualifying w sub))).
  split; [exact Hp|]. split.
  - split; [lia|]. apply Nat2Z.inj_le. apply filter_length_le.
  - intro Hn.
    assert (Hq : qualifying w sub = []).
    { destruct (qualifying w sub); [reflexivity | simpl in Hn; lia]. }
    destruct (Hz Hq) as (Hc & Hu & Ht).
    repeat split; auto.
    rewrite Hu, Hq in Hd. vm_compute in Hd. injection Hd as <-.
    rewrite Ha. reflexivity.
Qed.

Lemma posts_24h_bounded_by_listing_witness :
  exists n,
    posts_24h demo_stats = VInt n /\
    0 <= n <= Z.of_nat (List.length (hot_listing demo "clawdbot")) /\
    (n = 0 ->
     comments demo_stats = VInt 0 /\ total_upvotes demo_stats = VInt 0 /\
     top_score demo_stats = VInt 0 /\ avg_score demo_stats = VInt 0).
Proof.
  apply (posts_24h_bounded_by_listing demo "clawdbot" demo_stats).
  reflexivity.
Defined.

(** X4.  When the scores of the qualifying posts are integers and their
    total is below 2^52 in magnitude, the top score is an integer and
    the average never exceeds it; when the scores are also 0 or more,
    the average is 0 or more. *)
Theorem avg_score_at_most_top_score (w : world) (sub : string) (st : stats) :
  fetch_subreddit_stats w sub = Some st ->
  Forall (fun p => is_int (score p)) (qualifying w sub) ->
  Z.abs (int (total_upvotes st)) < 2 ^ 52 ->
  is_int (top_score st) /\
  (num (avg_score st) <= num (top_score st))%Q /\
  (Forall (fun p => (0 <= num (score p))%Q) (qualifying w sub) ->
   (0 <= num (avg_score st))%Q).
Proof.
  intros H Hint Hb.
  pose proof (total_upvotes_int _ _ _ H Hint) as Iu.
  destruct (avg_score_exact _ _ _ H Iu Hb) as (n' & d & Hn' & _ & Ha & Hr).
  rewrite Hr in Ha. clear Hr d.
  apply fetch_subreddit_stats_figures in H.
  destruct H as (Hp & Hu & _ & L0 & Fa & Ri & _).
  rewrite Hp in Hn'. injection Hn' as <-.
  set (qs := qualifying w sub) in *.
  set (n := Z.of_nat (List.length qs)) in *.
  set (t := num (total_upvotes st)) in *.
  assert (Ti : is_int (top_score st)).
  { destruct Ri as [-> | (p & Hp' & <-)]; [discriminate|].
    rewrite Forall_forall in Hint. apply Hint. exact Hp'. }
  pose proof (is_int_integral _ Ti) as Tz.
  assert (Hm : (0 < inject_Z (Z.max n 1))%Q).
  { rewrite <- (Zlt_Qlt 0). lia. }
  assert (Hle : (t <= inject_Z n * num (top_score st))%Q).
  { rewrite Hu. unfold n.
    rewrite <- (length_map (fun p => num (score p)) qs).
    apply qsum_le_const. apply Forall_map. exact Fa. }
  assert (Hq : (t / inject_Z (Z.max n 1) <= inject_Z (int (top_score st)))%Q).
  { rewrite <- Tz. apply Qle_shift_div_r; [exact Hm|].
    destruct (Z.eq_dec n 0) as [E0 | Ne].
    - rewrite E0 in *. change (inject_Z (Z.max 0 1)) with 1%Q.
      change (inject_Z 0) with 0%Q in Hle. lra.
    - replace (Z.max n 1) with n by lia.
      rewrite (Qmult_comm (num (top_score st))). exact Hle. }
  split; [exact Ti|]. rewrite Ha.
  change (num (VInt ?z)) with (inject_Z z).
  split.
  - apply Qle_trans with (inject_Z (int (top_score st)));
      [|rewrite Tz; apply Qle_refl].
    rewrite <- Zle_Qle. apply round_half_even_le. exact Hq.
  - intro Hpos. change 0%Q with (inject_Z 0). rewrite <- Zle_Qle.
    apply round_half_even_ge. change (inject_Z 0) with 0%Q.
    apply Qle_shift_div_l; [exact Hm|].
    assert (0 <= t)%Q.
    { rewrite Hu. apply qsum_nonneg. apply Forall_map. exact Hpos. }
    lra.
Qed.

Lemma avg_score_at_most_top_score_witness :
  (num (avg_score demo_stats) <= num (top_score demo_stats))%Q.
Proof.
  assert (H : Forall (fun p => is_int (score p)) (qualifying demo "clawdbot")).
  { vm_compute. repeat constructor; intro E; discriminate E. }
  assert (B : Z.abs (int (total_upvotes demo_stats)) < 2 ^ 52).
  { vm_compute. reflexivity. }
  exact (proj1 (proj2
    (avg_score_at_most_top_score demo "clawdbot" demo_stats eq_refl H B))).
Defined.

(** X5.  [fetch_github_stats] returns a result exactly when the request
    answers 200 with a JSON object; the three counters are then the
    [stargazers_count], [forks_count] and [open_issues_count] of that
    object, each 0 when the object does not have it.  A failed request,
    another status, or a body that is not a JSON object gives [None]. *)
Theorem fetch_github_stats_spec (w : world) (g : repo) :
  fetch_github_stats w = Some g <->
  exists d,
    http_get w github_url = Response 200 (Some (VDict d)) /\
    g = {| stars := dict_get d "stargazers_count" (VInt 0);
           forks := dict_get d "forks_count" (VInt 0);
           open_issues := dict_get d "open_issues_count" (VInt 0) |}.
Proof.
  unfold fetch_github_stats, fetch_github_stats_try. split.
  - destruct (http_get w github_url) as [|status body]; [discriminate|].
    destruct (status =? 200) eqn:Es; simpl; [|discriminate].
    apply Z.eqb_eq in Es. subst status.
    destruct body as [[| | | | | |d]|]; simpl; try discriminate.
    intro H. inv_ok H. exists d. split; reflexivity.
  - intros (d & -> & ->). reflexivity.
Qed.

Lemma fetch_github_stats_spec_witness :
  fetch_github_stats demo =
    Some {| stars := VInt 50; forks := VInt 7; open_issues := VInt 3 |}.
Proof.
  apply (fetch_github_stats_spec demo).
  exists [("stargazers_count", VInt 50); ("forks_count", VInt 7);
          ("open_issues_count", VInt 3)].
  split; reflexivity.
Defined.

(** * Further properties of the aggregator *)

(** X6.  The history entry a run appends agrees with the snapshot the run
    returns: its [reddit_*] values are the five totals of the snapshot, its
    [github_*] values the three repository counters, and its two time
    fields the formatted local time. *)
Theorem history_entry_records_snapshot (w : world) (fs fs' : files)
  (data : snapshot) :
  collect_all_stats w fs = (fs', Ok data) ->
  let e := last_entry fs' in
  let r := reddit data in
  let g := github data in
  lookup "timestamp" e = Some (VStr (timestamp_iso w)) /\
  lookup "time_local" e = Some (VStr (time_local w)) /\
  lookup "reddit_total" e = Some (Reddit.total_subscribers r) /\
  lookup "reddit_active" e = Some (Reddit.total_active r) /\
  lookup "reddit_posts" e = Some (Reddit.total_posts_24h r) /\
  lookup "reddit_comments" e = Some (Reddit.total_comments r) /\
  lookup "reddit_upvotes" e = Some (Reddit.total_upvotes r) /\
  lookup "github_stars" e = Some (Github.stars g) /\
  lookup "github_forks" e = Some (Github.forks g) /\
  lookup "github_issues" e = Some (Github.open_issues g).
Proof.
  intros H e r g. apply run_last_entry in H.
  destruct H as (t & Hb & Hs & He). symmetry in He.
  apply build_data_ok in Hb.
  destruct Hb as (prev & pr & pg & n & ds & dst & df & _ & _ & _ & _ & _
                  & _ & _ & _ & _ & Hd).
  assert (Hcfg : Forall (fun st => In (key st) SUBREDDITS)
                        (Totals.subreddit_stats t)).
  { rewrite Hs. apply available_configured. }
  pose proof (lookup_history_entry_aggregate _ _ _ "timestamp" _ He Hcfg) as L.
  unfold r, g. rewrite Hd. cbn [reddit github Reddit.total_subscribers
    Reddit.total_active Reddit.total_posts_24h Reddit.total_comments
    Reddit.total_upvotes Github.stars Github.forks Github.open_issues].
  fold e in He.
  repeat split;
    (rewrite (lookup_history_entry_aggregate _ _ _ _ _ He Hcfg);
     [reflexivity | unfold aggregate_keys; simpl; tauto]).
Qed.

Lemma history_entry_records_snapshot_witness :
  exists fs' data,
    collect_all_stats demo second_run = (fs', Ok data) /\
    lookup "reddit_total" (last_entry fs') = Some (VInt 600) /\
    lookup "github_stars" (last_entry fs') = Some (VInt 50).
Proof.
  destruct (collect_all_stats demo second_run) as [fs' [data|e]] eqn:E;
    [|vm_compute in E; discriminate].
  exists fs', data. split; [reflexivity|].
  pose proof (history_entry_records_snapshot demo second_run fs' data E)
    as (_ & _ & Ht & _ & _ & _ & _ & Hs & _).
  rewrite Ht, Hs. vm_compute in E. injection E as _ <-. split; reflexivity.
Defined.

(** X7.  For every community listed in the snapshot, the appended history
    entry holds its five counters under [<key>_subs], [<key>_active],
    [<key>_posts], [<key>_upvotes] and [<key>_comments]: with the
    configured communities no flattened key overwrites another. *)
Theorem history_entry_records_communities (w : world) (fs fs' : files)
  (data : snapshot) :
  collect_all_stats w fs = (fs', Ok data) ->
  forall st, In st (Reddit.subreddits (reddit data)) ->
  forall k v, In (k, v) (subreddit_items st) ->
  lookup k (last_entry fs') = Some v.
Proof.
  intros H st Hst k v Hkv. apply run_last_entry in H.
  destruct H as (t & Hb & Hs & He).
  apply build_data_ok in Hb.
  destruct Hb as (prev & pr & pg & n & ds & dst & df & _ & _ & _ & _ & _
                  & _ & _ & _ & _ & Hd).
  rewrite Hd in Hst. cbn [reddit Reddit.subreddits] in Hst.
  rewrite Hs in Hst.
  unfold history_entry in He. cbv zeta in He. inv_ok He. rewrite He.
  assert (Hk : In k (subreddit_keys (key st))).
  { rewrite <- subreddit_items_keys. apply (in_map fst) in Hkv. exact Hkv. }
  assert (Hcfg : In (key st) SUBREDDITS).
  { apply available_In in Hst. tauto. }
  assert (Hfree : forall a, In a aggregate_keys -> String.eqb k a = false).
  { intros a Ha. destruct (String.eqb k a) eqn:E; [|reflexivity].
    apply String.eqb_eq in E. subst a. exfalso.
    apply (aggregate_keys_free k (key st)); assumption. }
  rewrite !lookup_dict_set.
  rewrite !Hfree by (unfold aggregate_keys; simpl; tauto).
  rewrite Hs. apply lookup_fold_own with (st := st); auto.
  - rewrite available_keys. apply NoDup_filter. apply SUBREDDITS_NoDup.
  - apply available_configured.
Qed.

Lemma history_entry_records_communities_witness :
  exists fs' data,
    collect_all_stats demo second_run = (fs', Ok data) /\
    In demo_stats (Reddit.subreddits (reddit data)) /\
    lookup "clawdbot_subs" (last_entry fs') = Some (VInt 600).
Proof.
  destruct (collect_all_stats demo second_run) as [fs' [data|e]] eqn:E;
    [|vm_compute in E; discriminate].
  exists fs', data. split; [reflexivity|].
  assert (Hin : In demo_stats (Reddit.subreddits (reddit data))).
  { vm_compute in E. injection E as _ <-. left. reflexivity. }
  split; [exact Hin|].
  apply (history_entry_records_communities demo second_run fs' data E
           demo_stats Hin).
  left. reflexivity.
Defined.

(** X8.  Whatever the length of the old history, the new history is the
    last 999 of its entries (all of them when there are fewer), in their
    order, followed by the new entry: eviction is oldest first and the new
    entry is never the one dropped. *)
Theorem history_drops_oldest_first (w : world) (fs fs' : files)
  (data : snapshot) :
  collect_all_stats w fs = (fs', Ok data) ->
  exists h dropped kept,
    load_history fs = VList h /\
    h = (dropped ++ kept)%list /\
    HISTORY_FILE fs' = Parsed (VList (kept ++ [VDict (last_entry fs')])) /\
    List.length kept = Nat.min (List.length h) 999 /\
    List.length dropped = (List.length h - 999)%nat.
Proof.
  intro H. pose proof (run_last_entry _ _ _ _ H) as (t & Hb' & _ & He).
  apply collect_all_stats_ok in H.
  destruct H as (t' & gh & h & Hb & Hh & Hfs).
  pose proof (build_data_ok _ _ _ _ _ Hb) as Hd.
  destruct Hd as (prev & pr & pg & n & ds & dst & df & _ & _ & _ & Hl & Hgh
                  & _).
  subst gh. rewrite Hb in Hb'. inv_ok Hb'.
  exists h, (firstn (List.length h - 999) h), (skipn (List.length h - 999) h).
  split; [exact Hh|]. split; [symmetry; apply firstn_skipn|].
  split.
  - rewrite He. cbn [HISTORY_FILE].
    rewrite keep_last_1000_app. reflexivity.
  - rewrite length_skipn, length_firstn. lia.
Qed.

Lemma history_drops_oldest_first_witness :
  exists fs' data h dropped kept,
    collect_all_stats demo full_run = (fs', Ok data) /\
    load_history full_run = VList h /\
    h = (dropped ++ kept)%list /\
    List.length dropped = (List.length h - 999)%nat.
Proof.
  destruct (collect_all_stats demo full_run) as [fs' [data|x]] eqn:E;
    [|vm_compute in E; discriminate].
  destruct (history_drops_oldest_first demo full_run fs' data E)
    as (h & dropped & kept & Hh & Hs & _ & _ & Hd).
  exists fs', data, h, dropped, kept. auto.
Defined.

(** X9.  The communities of a snapshot carry the keys of the configured
    communities whose fetch succeeded, in configuration order: each is
    named [r/<key>], no key occurs twice, and there are at most five. *)
Theorem subreddits_follow_configuration (w : world) (fs fs' : files)
  (data : snapshot) :
  collect_all_stats w fs = (fs', Ok data) ->
  let rs := Reddit.subreddits (reddit data) in
  map key rs = filter (succeeded w) SUBREDDITS /\
  Forall (fun st => name st = ("r/" ++ key st)%string) rs /\
  NoDup (map key rs) /\
  (List.length rs <= 5)%nat.
Proof.
  intros H rs. apply run_last_entry in H. destruct H as (t & Hb & Hs & _).
  apply build_data_ok in Hb.
  destruct Hb as (prev & pr & pg & n & ds & dst & df & _ & _ & _ & _ & _
                  & _ & _ & _ & _ & Hd).
  assert (Hrs : rs = available w SUBREDDITS).
  { unfold rs. rewrite Hd. cbn [reddit Reddit.subreddits]. exact Hs. }
  rewrite Hrs. rewrite available_keys.
  split; [reflexivity|]. split; [|split].
  - apply Forall_forall. intros st Hin. apply available_In in Hin.
    destruct Hin as (_ & Hf). apply fetch_subreddit_stats_ok in Hf.
    destruct Hf as (j & about & c & m & quot & _ & _ & _ & _ & _ & _ & Hn
                    & Hk & _).
    exact Hn.
  - apply NoDup_filter. apply SUBREDDITS_NoDup.
  - rewrite <- (length_map key), available_keys.
    apply (filter_length_le (succeeded w) SUBREDDITS).
Qed.

Lemma subreddits_follow_configuration_witness :
  exists fs' data,
    collect_all_stats demo second_run = (fs', Ok data) /\
    map key (Reddit.subreddits (reddit data)) = ["clawdbot"].
Proof.
  destruct (collect_all_stats demo second_run) as [fs' [data|e]] eqn:E;
    [|vm_compute in E; discriminate].
  exists fs', data. split; [reflexivity|].
  destruct (subreddits_follow_configuration demo second_run fs' data E)
    as (Hk & _).
  rewrite Hk. vm_compute. reflexivity.
Defined.







(** X13.  A total outage does not stop a first run: when every community
    fetch and the repository fetch fail and neither file can be read, the
    run returns a snapshot with [data_points = 1], every total and delta at
    0 and no community, and starts a history of one entry. *)
Theorem outage_gives_zero_snapshot (w : world) (fs : files) :
  (forall sub, In sub SUBREDDITS -> fetch_subreddit_stats w sub = None) ->
  fetch_github_stats w = None ->
  (forall v, DATA_FILE fs <> Parsed v) ->
  (forall v, HISTORY_FILE fs <> Parsed v) ->
  exists fs' data,
    collect_all_stats w fs = (fs', Ok data) /\
    data_points data = 1 /\
    reddit data = zero_reddit /\
    github data = zero_github /\
    DATA_FILE fs' = Parsed (snapshot_value data) /\
    exists e, HISTORY_FILE fs' = Parsed (VList [VDict e]).
Proof.
  intros Hsubs Hgh Hdata Hhist.
  assert (Hp : load_previous_data fs = VDict []).
  { unfold load_previous_data. destruct (DATA_FILE fs) as [| |v];
      try reflexivity. exfalso. apply (Hdata v). reflexivity. }
  assert (Hh : load_history fs = VList []).
  { unfold load_history. destruct (HISTORY_FILE fs) as [| |v];
      try reflexivity. exfalso. apply (Hhist v). reflexivity. }
  assert (Hl : for_each (collect_sub w) totals0 SUBREDDITS = Ok totals0).
  { unfold SUBREDDITS in *. cbn [for_each]. unfold collect_sub.
    rewrite !Hsubs by (simpl; tauto). reflexivity. }
  unfold collect_all_stats, build_data.
  rewrite Hp. cbn [py_get dict_get lookup bind]. rewrite Hl. cbn [bind].
  unfold github_or_zero. rewrite Hgh. rewrite Hh.
  cbn [py_len bind List.length Z.of_nat stars forks open_issues].
  change (load_history {| DATA_FILE := _; HISTORY_FILE := HISTORY_FILE fs |})
    with (load_history fs).
  rewrite Hh.
  eexists. eexists. split; [reflexivity|].
  repeat split. eexists. reflexivity.
Qed.

Lemma outage_gives_zero_snapshot_witness :
  exists fs' data,
    collect_all_stats outage first_run = (fs', Ok data) /\
    data_points data = 1 /\ reddit data = zero_reddit.
Proof.
  destruct (outage_gives_zero_snapshot outage first_run)
    as (fs' & data & H & Hp & Hr & _).
  - intros sub _. apply metadata_failure. right.
    exists 404, None. split; [reflexivity | discriminate].
  - reflexivity.
  - intros v H. discriminate H.
  - intros v H. discriminate H.
  - exists fs', data. auto.
Defined.

(** * The publisher *)

(** X14.  [git_push] returns [True] exactly when [git add], [git commit]
    and [git push] all exit with 0, and [False] exactly when the first
    command that does not exit with 0 exits with another code; when that
    command could not be started the exception is not caught. *)
Theorem git_push_result (sh : shell) (now : string) :
  let r := snd (git_push sh now) in
  (r = Returned true <->
   sh git_add = Exited 0 /\ sh (git_commit now) = Exited 0 /\
   sh git_push_cmd = Exited 0) /\
  (r = Returned false <->
   exists code, code <> 0 /\
     (sh git_add = Exited code \/
      sh git_add = Exited 0 /\ sh (git_commit now) = Exited code \/
      sh git_add = Exited 0 /\ sh (git_commit now) = Exited 0 /\
      sh git_push_cmd = Exited code)) /\
  (r = Uncaught <->
   sh git_add = NotStarted \/
   sh git_add = Exited 0 /\ sh (git_commit now) = NotStarted \/
   sh git_add = Exited 0 /\ sh (git_commit now) = Exited 0 /\
   sh git_push_cmd = NotStarted).
Proof.
  unfold git_push, checked_run. cbv zeta.
  destruct (sh git_add) as [c1|];
    [destruct (Z.eqb_spec c1 0) as [-> | N1];
     [destruct (sh (git_commit now)) as [c2|];
      [destruct (Z.eqb_spec c2 0) as [-> | N2];
       [destruct (sh git_push_cmd) as [c3|];
        [destruct (Z.eqb_spec c3 0) as [-> | N3]|]|]|]|]|];
    cbn [fst snd];
    (split; [|split]); split;
    try discriminate; try tauto;
    try (intros (code & Hc & H)); try intro H;
    repeat match goal with
    | H : _ \/ _ |- _ => destruct H
    | H : _ /\ _ |- _ => destruct H
    | H : Exited _ = Exited _ |- _ => injection H as H
    | H : Exited _ = NotStarted |- _ => discriminate H
    | H : NotStarted = Exited _ |- _ => discriminate H
    end; subst; try congruence; try tauto;
    try (eexists; split; [eassumption | tauto]).
Qed.

Lemma git_push_result_witness :
  snd (git_push shell_ok "2023-11-15 06:13:20") = Returned true /\
  snd (git_push nothing_to_commit "2023-11-15 06:13:20") = Returned false.
Proof.
  split.
  - apply (git_push_result shell_ok "2023-11-15 06:13:20").
    repeat split; reflexivity.
  - apply (git_push_result nothing_to_commit "2023-11-15 06:13:20").
    exists 1. split; [discriminate|]. right. left. split; reflexivity.
Defined.

(** X15.  [git_push] runs [git add -A], then [git commit -m "Update
    <now>"], then [git push], and stops at the first command that does not
    exit with 0: the commit is attempted only after a successful add, the
    push only after a successful add and commit, and the call returns
    [True] only when all three were run. *)
Theorem git_push_stops_at_first_failure (sh : shell) (now : string) :
  let log := fst (git_push sh now) in
  (log = [git_add] \/ log = [git_add; git_commit now] \/
   log = [git_add; git_commit now; git_push_cmd]) /\
  (In (git_commit now) log -> sh git_add = Exited 0) /\
  (In git_push_cmd log ->
   sh git_add = Exited 0 /\ sh (git_commit now) = Exited 0) /\
  (snd (git_push sh now) = Returned true ->
   log = [git_add; git_commit now; git_push_cmd]).
Proof.
  assert (A1 : ~ In (git_commit now) [git_add]).
  { simpl. intros [H | []]. discriminate H. }
  assert (A2 : ~ In git_push_cmd [git_add]).
  { simpl. intros [H | []]. discriminate H. }
  assert (A3 : ~ In git_push_cmd [git_add; git_commit now]).
  { simpl. intros [H | [H | []]]; discriminate H. }
  unfold git_push, checked_run. cbv zeta.
  destruct (sh git_add) as [c1|];
    [destruct (Z.eqb_spec c1 0) as [-> | N1];
     [destruct (sh (git_commit now)) as [c2|];
      [destruct (Z.eqb_spec c2 0) as [-> | N2];
       [destruct (sh git_push_cmd) as [c3|];
        [destruct (Z.eqb_spec c3 0) as [-> | N3]|]|]|]|]|];
    cbn [fst snd]; repeat split; auto; try tauto; try discriminate.
Qed.

Lemma git_push_stops_at_first_failure_witness :
  fst (git_push nothing_to_commit "2023-11-15 06:13:20") =
    [git_add; git_commit "2023-11-15 06:13:20"] /\
  ~ In git_push_cmd (fst (git_push nothing_to_commit "2023-11-15 06:13:20")).
Proof.
  split; [reflexivity|].
  intro H.
  destruct (git_push_stops_at_first_failure nothing_to_commit
              "2023-11-15 06:13:20") as (_ & _ & Hp & _).
  destruct (Hp H) as (_ & Hc). discriminate Hc.
Defined.

(** * Defaults for missing members *)

(** X17.  Members missing from well-formed responses fall back to empty
    defaults: a metadata object without ['data'] gives 0 subscribers and 0
    active users, and a hot listing object without ['data'], or whose
    ['data'] has no ['children'], counts as no posts.  The fetch still
    returns a populated result, with every figure at 0. *)
Theorem missing_members_default_to_empty (w : world) (sub : string)
  (ja jh : list (string * value)) :
  http_get w (about_url sub) = Response 200 (Some (VDict ja)) ->
  lookup "data" ja = None ->
  http_get w (hot_url sub) = Response 200 (Some (VDict jh)) ->
  lookup "data" jh = None \/
  (exists dh, lookup "data" jh = Some (VDict dh) /\
              lookup "children" dh = None) ->
  fetch_subreddit_stats w sub =
    Some {| name := ("r/" ++ sub)%string; key := sub;
            subscribers := VInt 0; active := VInt 0;
            posts_24h := VInt 0; comments := VInt 0; avg_score := VInt 0;
            total_upvotes := VInt 0; top_score := VInt 0 |}.
Proof.
  intros Ha Hda Hh Hdh.
  assert (Ea : dict_get ja "data" (VDict []) = VDict []).
  { unfold dict_get. rewrite Hda. reflexivity. }
  assert (Eh : exists dh, dict_get jh "data" (VDict []) = VDict dh /\
                          dict_get dh "children" (VList []) = VList []).
  { unfold dict_get. destruct Hdh as [-> | (dh & -> & Hc)].
    - exists []. split; reflexivity.
    - exists dh. rewrite Hc. split; reflexivity. }
  destruct Eh as (dh & Eh & Ec).
  unfold fetch_subreddit_stats, fetch_subreddit_stats_try, hot_posts.
  rewrite Ha, Hh. cbn [Z.eqb Pos.eqb negb json bind py_get].
  rewrite Ea, Eh. cbn [bind py_get]. rewrite Ec. reflexivity.
Qed.

Lemma missing_members_default_to_empty_witness :
  fetch_subreddit_stats bare_responses "clawdbot" =
    Some {| name := "r/clawdbot"; key := "clawdbot";
            subscribers := VInt 0; active := VInt 0;
            posts_24h := VInt 0; comments := VInt 0; avg_score := VInt 0;
            total_upvotes := VInt 0; top_score := VInt 0 |}.
Proof.
  apply (missing_members_default_to_empty bare_responses "clawdbot"
           [("kind", VStr "t5")]
           [("kind", VStr "Listing"); ("data", VDict [("after", VNone)])]).
  - reflexivity.
  - reflexivity.
  - reflexivity.
  - right. exists [("after", VNone)]. split; reflexivity.
Defined.

(** X18.  [total_posts_24h] is always an integer: the number of qualifying
    posts summed over the communities of the snapshot. *)
Theorem total_posts_counts_qualifying (w : world) (fs fs' : files)
  (data : snapshot) :
  collect_all_stats w fs = (fs', Ok data) ->
  Reddit.total_posts_24h (reddit data) =
    VInt (zsum (map (fun st => Z.of_nat (List.length (qualifying w (key st))))
                    (Reddit.subreddits (reddit data)))).
Proof.
  intro H. apply run_last_entry in H. destruct H as (t & Hb & Hs & _).
  apply build_data_ok in Hb.
  destruct Hb as (prev & pr & pg & n & ds & dst & df & _ & _ & _ & Hl & _
                  & _ & _ & _ & _ & Hd).
  rewrite Hd. cbn [reddit Reddit.total_posts_24h Reddit.subreddits].
  rewrite Hs.
  assert (Hfig : forall st, In st (available w SUBREDDITS) ->
            posts_24h st = VInt (Z.of_nat (List.length (qualifying w (key st))))).
  { intros st Hin. apply available_In in Hin. destruct Hin as (_ & Hf).
    apply fetch_subreddit_stats_figures in Hf. tauto. }
  destruct (collect_loop_total w Totals.total_posts posts_24h
              (fun t0 t' sub st0 Hc Hf =>
                 proj1 (proj2 (proj2 (collect_sub_all w t0 t' sub st0 Hc Hf))))
              _ _ _ Hl) as (_ & _ & _ & Hi); [discriminate|].
  rewrite (Hi 0 eq_refl).
  - f_equal. rewrite Z.add_0_l. f_equal. rewrite map_map.
    apply map_ext_in. intros st Hin. rewrite (Hfig st Hin). reflexivity.
  - apply Forall_forall. intros v Hv. apply in_map_iff in Hv.
    destruct Hv as (st & <- & Hin). rewrite (Hfig st Hin). discriminate.
Qed.

Lemma total_posts_counts_qualifying_witness :
  exists fs' data,
    collect_all_stats demo second_run = (fs', Ok data) /\
    Reddit.total_posts_24h (reddit data) = VInt 2.
Proof.
  destruct (collect_all_stats demo second_run) as [fs' [data|e]] eqn:E;
    [|vm_compute in E; discriminate].
  exists fs', data. split; [reflexivity|].
  rewrite (total_posts_counts_qualifying demo second_run fs' data E).
  vm_compute in E. injection E as _ <-. vm_compute. reflexivity.
Defined.

(** * Fields of a populated result *)

(** X19.  In a populated result the active count is 0 when the metadata
    has none or has [null] (or any other falsy value) and is never
    [null]; the subscriber count is 0 when the metadata has none; the
    five figures computed from the posts are always numbers. *)
Theorem populated_result_fields (w : world) (sub : string) (st : stats) :
  fetch_subreddit_stats w sub = Some st ->
  let about := metadata w sub in
  (lookup "accounts_active" about = None \/
   lookup "accounts_active" about = Some VNone -> active st = VInt 0) /\
  active st <> VNone /\
  (active st = VInt 0 \/
   lookup "accounts_active" about = Some (active st) /\
   truthy (active st) = true) /\
  (lookup "subscribers" about = None -> subscribers st = VInt 0) /\
  is_number (posts_24h st) /\ is_number (comments st) /\
  is_number (avg_score st) /\ is_number (total_upvotes st) /\
  is_number (top_score st).
Proof.
  intros H about.
  destruct (avg_score_ok _ _ _ H) as (n & q & Hn & Nu & _ & Ha).
  apply fetch_subreddit_stats_ok in H.
  destruct H as (j & d & c & m & quot & Eh & Ed & Es & _ & _ & _ & _ & _
                 & Esub & Eact & Ep & Ec & Eu & Et).
  assert (Hab : about = d).
  { unfold about, metadata. rewrite Eh, Ed. reflexivity. }
  rewrite Hab. clear Hab about.
  apply scan_loop in Es. destruct Es as [_ Sc _ St].
  destruct Sc as (Nc & _); [discriminate|].
  destruct St as (Nt & _); [discriminate|].
  rewrite Esub, Eact. unfold dict_get.
  destruct (py_or_zero
              match lookup "accounts_active" d with
              | Some v => v
              | None => VInt 0
              end) as (Hnn & Hor).
  split; [|split; [exact Hnn|split; [|split]]].
  - intros [-> | ->]; reflexivity.
  - destruct Hor as [H0 | (Hv & Ht)]; [left; exact H0|].
    destruct (lookup "accounts_active" d) as [v|] eqn:L.
    + right. rewrite Hv. auto.
    + left. exact Hv.
  - intros ->. reflexivity.
  - rewrite Hn, Ha, Ec, Et. repeat split; try discriminate; assumption.
Qed.

Lemma populated_result_fields_witness :
  fetch_subreddit_stats demo "clawdbot" = Some demo_stats /\
  lookup "accounts_active" (metadata demo "clawdbot") = Some VNone /\
  active demo_stats = VInt 0.
Proof.
  split; [reflexivity|]. split; [reflexivity|].
  apply (populated_result_fields demo "clawdbot" demo_stats eq_refl).
  right. reflexivity.
Defined.
